(** * bentoml.tensorflow: the callable wrapper, the loader, the persister and
      the runner's derived properties

    A shallow embedding of [src/bentoml/tensorflow.py].

    - Python exceptions are values of [exn]; code that calls into TensorFlow,
      the model store or the restored function is a program [prog E R] over
      the calls it makes (one event per external call, in source order), so
      that "the original callable is never invoked" is a statement about the
      program and about every run of it.
    - The merged spec lookup of the wrapper is a Python [dict] keyed by
      parameter name: a [gmap string Spec].  Keyword arguments of a call keep
      their order (it decides which key an error names): an association list.
    - The runner's two derived properties only read the TensorFlow
      environment: they are pure functions of a [tf_env] record returning
      a value or an exception. *)

From stdpp Require Import base option list strings gmap.
From Stdlib Require Import ZArith QArith Qround Qabs Lqa Ascii.

Local Open Scope Z_scope.

(** ** Exceptions *)

(** The three [TypeError]s the wrapper can raise itself.  The second message
    interpolates a Python [set]; the payload is that set. *)
Inductive type_error :=
  | UnexpectedKeyword (k : string)   (* "Function got an unexpected keyword argument {k}" *)
  | TwoValues (keys : gset string)   (* "got two values for arguments '{_ambiguous_keys}'" *)
  | NotIterable.                     (* zip(...) or [in] applied to None *)

Inductive exn :=
  | TypeError (m : type_error)
  | AssertionError (msg : string)
  | NotImplementedError (msg : string)
  | AttributeError (attr : string)
  | KeyError (key : string)
  | ExternalError (msg : string).    (* raised inside a collaborator *)

Definition result (X : Type) : Type := exn + X.

(** ** Programs over external calls *)

Inductive prog (E : Type -> Type) (R : Type) : Type :=
  | Ret (r : R)
  | Raise (e : exn)
  | Vis (X : Type) (ev : E X) (k : result X -> prog E R).

Arguments Ret {E R} r.
Arguments Raise {E R} e.
Arguments Vis {E R X} ev k.

Fixpoint bind {E A B} (p : prog E A) (f : A -> prog E B) : prog E B :=
  match p with
  | Ret a => f a
  | Raise e => Raise e
  | Vis ev k => Vis ev (fun r => bind (k r) f)
  end.

#[global] Instance prog_ret {E} : MRet (prog E) := fun _ r => Ret r.
#[global] Instance prog_bind {E} : MBind (prog E) := fun _ _ f p => bind p f.

(** An external call: its exception, if any, propagates. *)
Definition trigger {E X} (ev : E X) : prog E X :=
  Vis ev (fun r => match r with inl e => Raise e | inr x => Ret x end).

(** [assert cond, msg] *)
Definition py_assert {E} (cond : bool) (msg : string) : prog E unit :=
  if cond then Ret tt else Raise (AssertionError msg).

(** [try: p finally: fin], with the outcome of [p] handed to [fin] the way a
    context manager's exit receives it. *)
Fixpoint finally {E R} (p : prog E R) (fin : option exn -> prog E unit) : prog E R :=
  match p with
  | Ret r => bind (fin None) (fun _ => Ret r)
  | Raise e => bind (fin (Some e)) (fun _ => Raise e)
  | Vis ev k => Vis ev (fun r => finally (k r) fin)
  end.

(** A handler answers each external call in a world [W]. *)
Definition handler (E : Type -> Type) (W : Type) : Type :=
  forall X, E X -> W -> result X * W.

Definition event (E : Type -> Type) : Type := sigT E.
Definition ev_of {E X} (e : E X) : event E := existT X e.

(** Runs a program: the calls made, in order, the outcome and the final world. *)
Fixpoint exec {E R W} (h : handler E W) (p : prog E R) (w : W)
  : list (event E) * (result R * W) :=
  match p with
  | Ret r => ([], (inr r, w))
  | Raise e => ([], (inl e, w))
  | Vis ev k =>
      let '(r, w') := h _ ev w in
      let '(t, out) := exec h (k r) w' in
      (ev_of ev :: t, out)
  end.

(** ** The callable wrapper ([_tf_function_wrapper]) *)

Section Wrapper.
Context {V Spec Func : Type}.

(** What a wrapped call asks of its collaborators. *)
Inductive callE : Type -> Type :=
  | CastTensorBySpec (arg : V) (spec : Spec) : callE V
  | Invoke (f : Func) (args : list V) (kwargs : list (string * V)) : callE V.

Record tf_function_wrapper := {
  origin_func : Func;
  arg_names : option (list string);
  arg_specs : option (list Spec);
  kwarg_specs : option (gmap string Spec);
}.

(** [{k: v for k, v in pairs}]: a later pair overwrites an earlier one. *)
Definition dict_of_pairs (pairs : list (string * Spec)) : gmap string Spec :=
  foldl (fun d kv => <[kv.1 := kv.2]> d) ∅ pairs.

(** [d.update(other)] *)
Definition dict_update (d other : gmap string Spec) : gmap string Spec :=
  other ∪ d.

(** [__init__]; [x or []] is [default [] x] and [x or {}] is [default ∅ x]. *)
Definition init (origin : Func) (names : option (list string))
    (specs : option (list Spec)) (kws : option (gmap string Spec))
  : tf_function_wrapper :=
  {| origin_func := origin;
     arg_names := names;
     arg_specs := specs;
     kwarg_specs :=
       Some (dict_update (dict_of_pairs (zip (default [] names) (default [] specs)))
                         (default ∅ kws)) |}.

(** [for k in kwargs: if k not in self.kwarg_specs: raise TypeError(...)] *)
Fixpoint check_kwargs (specs : option (gmap string Spec))
    (kwargs : list (string * V)) : prog callE unit :=
  match kwargs with
  | [] => Ret tt
  | (k, _) :: rest =>
      match specs with
      | None => Raise (TypeError NotIterable)
      | Some d =>
          match d !! k with
          | None => Raise (TypeError (UnexpectedKeyword k))
          | Some _ => check_kwargs specs rest
          end
      end
  end.

(** [{k for k, _ in zip(self.arg_names, args)}] *)
Definition arg_keys (names : list string) (args : list V) : gset string :=
  list_to_set (zip names args).*1.

(** [set(kwargs)] *)
Definition kwarg_keys (kwargs : list (string * V)) : gset string :=
  list_to_set kwargs.*1.

(** [tuple(cast_tensor_by_spec(arg, spec) for arg, spec in pairs)] *)
Fixpoint cast_args (pairs : list (V * Spec)) : prog callE (list V) :=
  match pairs with
  | [] => Ret []
  | (arg, spec) :: rest =>
      v ← trigger (CastTensorBySpec arg spec);
      vs ← cast_args rest;
      Ret (v :: vs)
  end.

(** [{k: cast_tensor_by_spec(arg, self.kwarg_specs[k]) for k, arg in kwargs.items()}] *)
Fixpoint cast_kwargs (specs : option (gmap string Spec))
    (kwargs : list (string * V)) : prog callE (list (string * V)) :=
  match kwargs with
  | [] => Ret []
  | (k, arg) :: rest =>
      match specs with
      | None => Raise (TypeError NotIterable)
      | Some d =>
          match d !! k with
          | None => Raise (KeyError k)
          | Some spec =>
              v ← trigger (CastTensorBySpec arg spec);
              vs ← cast_kwargs specs rest;
              Ret ((k, v) :: vs)
          end
      end
  end.

(** The body of [__call__] below the pass-through test. *)
Definition validated_call (self : tf_function_wrapper) (args : list V)
    (kwargs : list (string * V)) : prog callE V :=
  _ ← check_kwargs (kwarg_specs self) kwargs;
  match arg_names self with
  | None => Raise (TypeError NotIterable)
  | Some names =>
      let _ambiguous_keys := arg_keys names args ∩ kwarg_keys kwargs in
      if decide (_ambiguous_keys = ∅) then
        match arg_specs self with
        | None => Raise (TypeError NotIterable)
        | Some specs =>
            transformed_args ← cast_args (zip args specs);
            transformed_kwargs ← cast_kwargs (kwarg_specs self) kwargs;
            trigger (Invoke (origin_func self) transformed_args transformed_kwargs)
        end
      else Raise (TypeError (TwoValues _ambiguous_keys))
  end.

(** [__call__]: [if self.arg_specs is None and self.kwarg_specs is None] *)
Definition call (self : tf_function_wrapper) (args : list V)
    (kwargs : list (string * V)) : prog callE V :=
  match arg_specs self, kwarg_specs self with
  | None, None => trigger (Invoke (origin_func self) args kwargs)
  | _, _ => validated_call self args kwargs
  end.

End Wrapper.

(** ** Bulk application ([hook_loaded_model]) *)

Section Hook.
Context {V Spec Func : Type}.

(** An attribute of a loaded model object. *)
Inductive attr :=
  | AFunc (f : Func)
  | AWrapper (w : @tf_function_wrapper Spec Func)
  | ABool (b : bool)
  | AOther (v : V).

(** A loaded model object: its attributes by name. *)
Definition object : Type := gmap string attr.

(** Signature introspection lives in [_internal/utils/tensorflow.py]; the
    three functions are taken as they are used here. *)
Variable get_restored_functions : object -> gmap string Func.
Variable get_arg_names : Func -> option (list string).
Variable get_input_signatures :
  Func -> list (option (list Spec) * option (gmap string Spec)).

(** The body of the loop: [continue] when [not sigs], else [setattr]. *)
Definition hook_one (loaded_model : object) (kf : string * Func) : object :=
  let '(k, func) := kf in
  let arg_names := get_arg_names func in
  match get_input_signatures func with
  | [] => loaded_model
  | (arg_specs, kwarg_specs) :: _ =>
      <[k := AWrapper (init func arg_names arg_specs kwarg_specs)]> loaded_model
  end.

(** [for k, func in funcs.items(): ...]; the object is updated in place and
    the updated object is what the caller holds afterwards. *)
Definition hook_loaded_model (loaded_model : object) : object :=
  foldl hook_one loaded_model (map_to_list (get_restored_functions loaded_model)).

End Hook.

(** ** The loader ([load]) *)

(** [__name__] *)
Definition MODULE_NAME : string := "bentoml.tensorflow".

(** The messages of the module; their line breaks are written as spaces. *)
Definition TF_FUNCTION_WARNING : string :=
  "Due to TensorFlow's internal mechanism, only methods wrapped under `@tf.function` decorator and the Keras default function `__call__(inputs, training=False)` can be restored after a save & load. You can test the restored model object via `bentoml.tensorflow.load(path)`".

(** [KERAS_MODEL_WARNING.format(name=name)] *)
Definition KERAS_MODEL_WARNING (name : string) : string :=
  String.append "BentoML detected that "
    (String.append name
       " is being used to pack a Keras API based model. In order to get optimal serving performance, we recommend to wrap your keras model `call()` methods with `@tf.function` decorator.").

Definition AUTOTRACKABLE_CALLABLE_WARNING : string :=
  "Importing SavedModels from TensorFlow 1.x. `outputs = imported(inputs)` will not be supported by BentoML due to `tensorflow` API. See https://www.tensorflow.org/api_docs/python/tf/saved_model/load for more details.".

Definition LOAD_AS_WRAPPER_MESSAGE : string :=
  "You have to specified `load_as_wrapper=True | False` to load a `tensorflow_hub` module. If True is chosen, then BentoML will return either an instance of `hub.KerasLayer` or `hub.Module` depending on your TF version. For most usecase, we recommend to keep `load_as_wrapper=True`. If you wish to extend the functionalities of the given model, set `load_as_wrapper=False` will return a tf.SavedModel object.".

(** What [model_store.get(tag)] returns. *)
Record model_info := {
  info_path : string;
  info_context : gmap string string;
  info_options : gmap string string;
}.

Section Loader.
Context {V Spec Func Options : Type}.

Abbreviation obj := (@object V Spec Func).

(** The external calls of [load], one per call in the source. *)
Inductive loadE : Type -> Type :=
  | StoreGet (tag : string) : loadE model_info
  | HubKerasLayer (module_path : string) : loadE obj
  | HubModule (module_path : string) : loadE obj
  | GetModuleProtoPath (module_path : string) : loadE string
  | GfileExists (path : string) : loadE bool
  | HasLoadOptions : loadE bool
  | LoadV2 (module_path : string) (tags : option (list string))
           (options : option Options) : loadE obj
  | SavedModelLoad (path : string) : loadE obj
  | IsAutoTrackable (o : obj) : loadE bool
  | PrettyFormatRestoredModel (o : obj) : loadE string
  | LogWarning (msg : string) : loadE unit
  | LogInfo (msg : string) : loadE unit.

Variable TF2 : bool.
Variable tf_version : string.
Variable get_restored_functions : obj -> gmap string Func.
Variable get_arg_names : Func -> option (list string).
Variable get_input_signatures :
  Func -> list (option (list Spec) * option (gmap string Spec)).

(** [d[key]] *)
Definition subscript {E} (d : gmap string string) (key : string) : prog E string :=
  match d !! key with
  | Some v => Ret v
  | None => Raise (KeyError key)
  end.

(** [hasattr(o, name)] on an attribute map. *)
Definition hasattr (o : obj) (name : string) : bool :=
  bool_decide (is_Some (o !! name)).

(** [_load_tf_saved_model] *)
Definition _load_tf_saved_model (path : string) : prog loadE obj :=
  if TF2 then trigger (SavedModelLoad path)
  else
    loaded ← trigger (SavedModelLoad path);
    tracked ← trigger (IsAutoTrackable loaded);
    _ ← (if tracked && negb (hasattr loaded "__call__")
         then trigger (LogWarning AUTOTRACKABLE_CALLABLE_WARNING)
         else Ret tt);
    Ret loaded.

(** [load] *)
Definition load (tag : string) (tfhub_tags : option (list string))
    (tfhub_options : option Options) (load_as_wrapper : option bool)
  : prog loadE obj :=
  model_info ← trigger (StoreGet tag);
  if decide (is_Some (info_context model_info !! "tensorflow_hub")) then
    _ ← py_assert (bool_decide (load_as_wrapper ≠ None)) LOAD_AS_WRAPPER_MESSAGE;
    module_path ← subscript (info_options model_info) "local_path";
    if default false load_as_wrapper then
      if TF2 then trigger (HubKerasLayer module_path)
      else trigger (HubModule module_path)
    else
      proto_path ← trigger (GetModuleProtoPath module_path);
      is_hub_module_v1 ← trigger (GfileExists proto_path);
      let tfhub_tags :=
        match tfhub_tags with
        | None => if (is_hub_module_v1 : bool) then Some [] else None
        | Some tags => Some tags
        end in
      o ← match tfhub_options with
          | Some options =>
              supported ← trigger HasLoadOptions;
              if (supported : bool)
              then trigger (LoadV2 module_path tfhub_tags (Some options))
              else Raise (NotImplementedError
                     (String.append
                        "options are not supported for TF < 2.3.x, Current version: "
                        tf_version))
          | None => trigger (LoadV2 module_path tfhub_tags None)
          end;
      Ret (<["_is_hub_module_v1" := ABool is_hub_module_v1]> o)
  else
    model ← _load_tf_saved_model (info_path model_info);
    let model :=
      hook_loaded_model get_restored_functions get_arg_names
                        get_input_signatures model in
    _ ← trigger (LogWarning TF_FUNCTION_WARNING);
    summary ← trigger (PrettyFormatRestoredModel model);
    _ ← trigger (LogInfo summary);
    _ ← (if hasattr model "keras_api"
         then trigger (LogWarning (KERAS_MODEL_WARNING MODULE_NAME))
         else Ret tt);
    Ret model.

End Loader.


(** ** The persister ([save]) *)

(** The context a registration scope exposes: [ctx.path] and [ctx.tag]. *)
Record store_ctx := {
  ctx_path : string;
  ctx_tag : string;
}.

(** A path argument, one of the types [save] tests for with
    [isinstance(model, (str, bytes, os.PathLike, pathlib.Path))]: a [str],
    a [bytes] with its content, or a path object with what [os.fspath] and
    what [str] give for it. *)
Inductive path_like :=
  | StrPath (s : string)
  | BytesPath (b : string)
  | PathObject (fspath as_str : string).

Section Persister.
Context {Model Signatures Options Metadata : Type}.

(** [model: Union[tf.keras.Model, tf.Module, PathType]]; the [isinstance]
    test of [save] tells the two apart. *)
Inductive model_arg :=
  | ModelPath (p : path_like)
  | ModelObject (m : Model).

(** The external calls of [save]. *)
Inductive saveE : Type -> Type :=
  | StoreRegister (name module : string) (options : option Options)
      (framework_context : gmap string string) (metadata : option Metadata)
      : saveE store_ctx
  | StoreRegisterExit (ctx : store_ctx) (outcome : option exn) : saveE unit
  | IsDir (path : path_like) : saveE bool
  | CopyTree (src dst : string) : saveE unit
  | SavedModelSave (m : Model) (path : string) (signatures : option Signatures)
      (options : option Options) : saveE unit
  | SaveLogWarning (msg : string) : saveE unit.

Variable TF2 : bool.
Variable tf_version : string.
Variable str_options : Options -> string.
(** [str] on [bytes]: the text of the bytes literal. *)
Variable str_bytes : string -> string.

(** [str(model)] for a path argument. *)
Definition str_path (p : path_like) : string :=
  match p with
  | StrPath s => s
  | BytesPath b => str_bytes b
  | PathObject _ as_str => as_str
  end.

(** Modelled from the spec: the registration scope of the model store, which
    is not part of this file.  Entering the scope yields the context; the
    entry is finalised when the scope is left; an error raised inside the
    scope is handed to the exit and then reaches the caller. *)
Definition with_register {R} (enter : saveE store_ctx)
    (body : store_ctx -> prog saveE R) : prog saveE R :=
  ctx ← trigger enter;
  finally (body ctx) (fun outcome => trigger (StoreRegisterExit ctx outcome)).

(** [save] *)
Definition save (name : string) (model : model_arg)
    (signatures : option Signatures) (options : option Options)
    (metadata : option Metadata) : prog saveE string :=
  let context : gmap string string := {[ "tensorflow" := tf_version ]} in
  with_register (StoreRegister name MODULE_NAME None context metadata)
    (fun ctx =>
       match model with
       | ModelPath p =>
           is_dir ← trigger (IsDir p);
           _ ← py_assert is_dir "";
           _ ← trigger (CopyTree (str_path p) (ctx_path ctx));
           Ret (ctx_tag ctx)
       | ModelObject m =>
           if TF2 then
             _ ← trigger (SavedModelSave m (ctx_path ctx) signatures options);
             Ret (ctx_tag ctx)
           else
             _ ← match options with
                 | Some o =>
                     trigger (SaveLogWarning
                       (String.append "Parameter 'options: "
                         (String.append (str_options o)
                           (String.append "' is ignored when using tensorflow "
                                          tf_version))))
                 | None => Ret tt
                 end;
             _ ← trigger (SavedModelSave m (ctx_path ctx) signatures None);
             Ret (ctx_tag ctx)
       end).

End Persister.

(** ** The runner's derived properties ([_TensorflowRunner]) *)

(** The resource quota as the runner reads it: [resource_quota.cpu] (a finite
    float, whose value is a rational) and [resource_quota.on_gpu]. *)
Record resource_quota := {
  cpu : Q;
  on_gpu : bool;
}.

(** What the two properties read of TensorFlow.  [tf.config] has a
    [list_physical_devices] only in recent versions: [None] is a version in
    which looking the attribute up raises [AttributeError]. *)
Record tf_env := {
  config_list_physical_devices : option (string -> list string);
  test_is_gpu_available : bool;
}.

(** [tf.config.list_physical_devices(kind)] *)
Definition list_physical_devices (env : tf_env) (kind : string)
  : result (list string) :=
  match config_list_physical_devices env with
  | Some f => inr (f kind)
  | None => inl (AttributeError "list_physical_devices")
  end.

(** [_is_gpu_available]: [try ... except AttributeError]. *)
Definition _is_gpu_available (env : tf_env) : result bool :=
  match list_physical_devices env "GPU" with
  | inr devices => inr (bool_decide (0 < length devices)%nat)
  | inl (AttributeError _) => inr (test_is_gpu_available env)
  | inl e => inl e
  end.

(** [round(x)] on a finite float: the nearest integer, ties to the even one. *)
Definition py_round (x : Q) : Z :=
  let f := Qfloor x in
  match Qcompare (x - inject_Z f) (1 # 2) with
  | Lt => f
  | Gt => f + 1
  | Eq => if Z.even f then f else f + 1
  end.

(** [num_concurrency_per_replica] *)
Definition num_concurrency_per_replica (env : tf_env) (quota : resource_quota)
  : result Z :=
  match _is_gpu_available env with
  | inl e => inl e
  | inr available =>
      if available && on_gpu quota then inr 1
      else inr (py_round (cpu quota))
  end.

(** [num_replica] *)
Definition num_replica (env : tf_env) (quota : resource_quota) : result Z :=
  match _is_gpu_available env with
  | inl e => inl e
  | inr available =>
      if available && on_gpu quota then
        match list_physical_devices env "GPU" with
        | inl e => inl e
        | inr devices => inr (Z.of_nat (length devices))
        end
      else inr 1
  end.

(** ** Reading a run, and the claims' own words *)

Section Reading.
Context {V Spec Func : Type}.

(** The invocations of the original callable found in a run. *)
Definition invocations (t : list (event (@callE V Spec Func)))
  : list (Func * list V * list (string * V)) :=
  omap (fun e : event callE =>
          match e with
          | existT _ (Invoke f args kwargs) => Some (f, args, kwargs)
          | existT _ (CastTensorBySpec _ _) => None
          end) t.

(** The coercions found in a run. *)
Definition coercions (t : list (event (@callE V Spec Func))) : list (V * Spec) :=
  omap (fun e : event callE =>
          match e with
          | existT _ (CastTensorBySpec arg spec) => Some (arg, spec)
          | existT _ (Invoke _ _ _) => None
          end) t.

(** Collaborators that always answer: a coercion function and the original
    callable as a function of what it receives. *)
Definition pure_handler (cast : V -> Spec -> V)
    (orig : Func -> list V -> list (string * V) -> V) : handler callE unit :=
  fun X ev w =>
    match ev in callE X return result X * unit with
    | CastTensorBySpec arg spec => (inr (cast arg spec), w)
    | Invoke f args kwargs => (inr (orig f args kwargs), w)
    end.

(** The keyword arguments after coercion against the lookup [d]. *)
Definition coerced_kwargs (cast : V -> Spec -> V) (d : gmap string Spec)
    (kwargs : list (string * V)) : list (string * V) :=
  omap (fun kv : string * V => spec ← d !! kv.1; Some (kv.1, cast kv.2 spec)) kwargs.

(** The coercions of the keyword arguments, in call order. *)
Definition kwarg_coercions (d : gmap string Spec) (kwargs : list (string * V))
  : list (V * Spec) :=
  omap (fun kv : string * V => spec ← d !! kv.1; Some (kv.2, spec)) kwargs.

(** Pass-through of the trailing positional arguments, in the words of the
    specification: the callable receives the first [n] positions coerced and
    the positions beyond [n] unchanged. *)
Definition spec_extra_positional_pass_through (cast : V -> Spec -> V)
    (orig : Func -> list V -> list (string * V) -> V)
    (w : tf_function_wrapper) (specs : list Spec) (args : list V) : Prop :=
  arg_specs w = Some specs ->
  (length specs < length args)%nat ->
  invocations (exec (pure_handler cast orig) (call w args []) tt).1
  = [(origin_func w,
      zip_with cast (take (length specs) args) specs ++ drop (length specs) args,
      [])].

(** The unknown-keyword failure, in the words of the specification: a call
    that supplies a keyword name absent from the lookup fails with the error
    naming exactly that name. *)
Definition spec_unknown_keyword_error (w : @tf_function_wrapper Spec Func)
    (d : gmap string Spec) (args : list V) (kwargs : list (string * V))
    (k : string) : Prop :=
  kwarg_specs w = Some d ->
  k ∈ kwargs.*1 ->
  d !! k = None ->
  call w args kwargs = Raise (TypeError (UnexpectedKeyword k)).


(** The map obtained by zipping the ordered names against the positional
    specs; pairing stops at the shorter list, and of two pairs with one name
    the later one stands. *)
Fixpoint spec_zip_lookup (names : list string) (specs : list Spec) (k : string)
  : option Spec :=
  match names, specs with
  | n :: names', s :: specs' =>
      match spec_zip_lookup names' specs' k with
      | Some s' => Some s'
      | None => if decide (n = k) then Some s else None
      end
  | _, _ => None
  end.

(** The merged lookup, in the words of the specification: the zipped map
    overlaid with the explicit keyword specs, which take precedence. *)
Definition spec_merged_lookup (names : list string) (specs : list Spec)
    (kws : gmap string Spec) (k : string) : option Spec :=
  match kws !! k with
  | Some s => Some s
  | None => spec_zip_lookup names specs k
  end.

End Reading.

(** A GPU is available to TensorFlow: a physical GPU device is listed or,
    where the listing does not exist, the legacy test says so. *)
Definition gpu_available (env : tf_env) : Prop :=
  match config_list_physical_devices env with
  | Some f => f "GPU" ≠ []
  | None => test_is_gpu_available env = true
  end.

(** A GPU being available is decided by looking. *)
#[global] Instance gpu_available_dec (env : tf_env) : Decision (gpu_available env).
Proof.
  unfold gpu_available. destruct (config_list_physical_devices env); apply _.
Defined.

(** ** Concrete collaborators, for running the definitions *)

Module Example.

(** A wrapper over two names and one positional spec; values, specs and
    functions are numbers. *)
Definition wrapper : @tf_function_wrapper nat nat :=
  init 0%nat (Some ["a"; "b"]) (Some [7%nat]) None.

Definition lookup : gmap string nat :=
  dict_update (dict_of_pairs (zip ["a"; "b"] [7%nat])) ∅.

Definition cast (arg spec : nat) : nat := (arg + spec)%nat.

Definition orig (f : nat) (args : list nat) (kwargs : list (string * nat)) : nat :=
  (f + length args + length kwargs)%nat.

(** A store whose entry for every tag is a hub module; nothing else answers. *)
Definition hub_store : handler (@loadE nat nat nat nat) unit :=
  fun X ev w =>
    match ev in loadE X return result X * unit with
    | StoreGet tag =>
        (inr {| info_path := "/store/m";
                info_context := {[ "tensorflow_hub" := "0.12.0" ]};
                info_options := {[ "local_path" := "/store/m/hub" ]} |}, w)
    | _ => (inl (ExternalError "unavailable"), w)
    end.

Definition ctx : store_ctx := {| ctx_path := "/store/m1/v1"; ctx_tag := "m1:v1" |}.

(** A file system without directories, and a store that registers. *)
Definition no_directory : handler (@saveE nat nat nat nat) unit :=
  fun X ev w =>
    match ev in saveE X return result X * unit with
    | StoreRegister _ _ _ _ _ => (inr ctx, w)
    | StoreRegisterExit _ _ => (inr tt, w)
    | IsDir _ => (inr false, w)
    | CopyTree _ _ => (inr tt, w)
    | SavedModelSave _ _ _ _ => (inr tt, w)
    | SaveLogWarning _ => (inr tt, w)
    end.

(** A loaded model with one restored function that records two signatures. *)
Definition model : @object nat nat nat := {[ "predict" := AFunc 1%nat ]}.

Definition restored (m : @object nat nat nat) : gmap string nat :=
  {[ "predict" := 1%nat ]}.

Definition names_of (f : nat) : option (list string) := Some ["x"].

Definition signatures_of (f : nat)
  : list (option (list nat) * option (gmap string nat)) :=
  [(Some [10%nat], None); (Some [20%nat; 30%nat], None)].

(** TensorFlow before [tf.config.list_physical_devices], on a GPU host. *)
Definition legacy_gpu_env : tf_env :=
  {| config_list_physical_devices := None; test_is_gpu_available := true |}.

Definition gpu_quota : resource_quota := {| cpu := 4; on_gpu := true |}.

End Example.

(** ** Names of imported modules ([_clean_name] and the name derivation of
       [import_from_tfhub]) *)

(** [s.startswith(p)] *)
Fixpoint starts_with (p s : string) : bool :=
  match p with
  | EmptyString => true
  | String a p' =>
      match s with
      | EmptyString => false
      | String b s' => bool_decide (a = b) && starts_with p' s'
      end
  end.

Section CleanName.
(** The character classes of [re]: [\w] and [\d]. *)
Variable is_word : Ascii.ascii -> bool.
Variable is_digit : Ascii.ascii -> bool.

(** Whether [\W|^(?=\d)-] matches the one character [c]; [at_start] says that
    [c] is the first character of the name, where [^] holds. *)
Definition pattern_matches (at_start : bool) (c : Ascii.ascii) : bool :=
  negb (is_word c) || (at_start && is_digit c && bool_decide (c = "-"%char)).

Fixpoint sub_from (at_start : bool) (name : string) : string :=
  match name with
  | EmptyString => EmptyString
  | String c rest =>
      String (if pattern_matches at_start c then "_"%char else c)
             (sub_from false rest)
  end.

(** [_clean_name]: [re.sub(r"\W|^(?=\d)-", "_", name)] *)
Definition _clean_name (name : string) : string := sub_from true name.

(** [s.split("/")]: never an empty list. *)
Fixpoint split_slash (s : string) : list string :=
  match s with
  | EmptyString => [EmptyString]
  | String c rest =>
      if bool_decide (c = "/"%char) then EmptyString :: split_slash rest
      else match split_slash rest with
           | seg :: segs => String c seg :: segs
           | [] => [String c EmptyString]
           end
  end.

(** [s.split("/", maxsplit=n)] *)
Fixpoint split_slash_max (s : string) (n : nat) : list string :=
  match s with
  | EmptyString => [EmptyString]
  | String c rest =>
      match n with
      | O => [s]
      | S n' =>
          if bool_decide (c = "/"%char) then EmptyString :: split_slash_max rest n'
          else match split_slash_max rest n with
               | seg :: segs => String c seg :: segs
               | [] => [String c EmptyString]
               end
      end
  end.

(** [l[-1]] on a list of strings that is not empty. *)
Definition last_item (l : list string) : string := List.last l EmptyString.

(** [identifier.startswith(("http://", "https://"))] *)
Definition is_url (identifier : string) : bool :=
  starts_with "http://" identifier || starts_with "https://" identifier.

(** The name given to a module imported from an identifier string. *)
Definition name_of_handle (identifier : string) : string :=
  if is_url identifier
  then _clean_name (last_item (split_slash_max identifier 3))
  else _clean_name (last_item (split_slash identifier)).

End CleanName.

(** Whether every character of a string passes a test. *)
Fixpoint all_chars (p : Ascii.ascii -> bool) (s : string) : bool :=
  match s with
  | EmptyString => true
  | String c rest => p c && all_chars p rest
  end.

Definition not_slash (c : Ascii.ascii) : bool := negb (bool_decide (c = "/"%char)).

(** [s.upper()] on one character of an ASCII string. *)
Definition upper_char (c : Ascii.ascii) : ascii :=
  let n := Ascii.nat_of_ascii c in
  if (97 <=? n)%nat && (n <=? 122)%nat then Ascii.ascii_of_nat (n - 32) else c.

Fixpoint upper (s : string) : string :=
  match s with
  | EmptyString => EmptyString
  | String c rest => String (upper_char c) (upper rest)
  end.

(** ** Importing from TensorFlow Hub ([import_from_tfhub]) *)

(** [MissingDependencyException], declared in [bentoml/exceptions.py]. *)
Definition MissingDependencyException (msg : string) : exn :=
  ExternalError (String.append "MissingDependencyException: " msg).

Definition TFHUB_REQUIRED : string :=
  "`tensorflow_hub` is required in order to use `bentoml.tensorflow.import_from_tensorflow_hub`. Instruction: `pip install --upgrade tensorflow_hub`".

(** Modelled from the spec: the scopes entered by [with] in this file (the
    store's registration, a session, a device context) belong to code that
    is not part of it.  [with enter as x: body] runs the body and then the
    exit, which receives the body's error, if any, and hands it on. *)
Definition scoped {E R X} (enter : prog E X) (leave : X -> option exn -> prog E unit)
    (body : X -> prog E R) : prog E R :=
  x ← enter;
  finally (body x) (leave x).

Section Importer.
Context {HubObj Options Metadata Graph Sess Op : Type}.

(** [identifier: Union[str, hub.Module, hub.KerasLayer]] *)
Inductive hub_identifier :=
  | Handle (s : string)
  | HubObject (o : HubObj).

(** The external calls of [import_from_tfhub]. *)
Inductive importE : Type -> Type :=
  | HubRegister (name module : string) (options : option Options)
      (framework_context : gmap string string) (metadata : option Metadata)
      : importE store_ctx
  | HubRegisterExit (ctx : store_ctx) (outcome : option exn) : importE unit
  | SetCtxOptions (ctx : store_ctx) (options : gmap string string) : importE unit
  | SetEnviron (key value : string) : importE unit
  | Resolve (handle : string) : importE string
  | Uuid4Hex : importE string
  | GetDefaultGraph : importE Graph
  | SessionOfGraph (g : Graph) : importE Sess
  | SessionEnter (s : Sess) : importE Sess
  | SessionExit (s : Sess) (outcome : option exn) : importE unit
  | GlobalVariablesInitializer : importE Op
  | SessionRun (s : Sess) (op : Op) : importE unit
  | Export (o : HubObj) (path : string) (s : Sess) : importE unit
  | HubSavedModelSave (o : HubObj) (path : string) : importE unit.

Variable is_word : Ascii.ascii -> bool.
Variable is_digit : Ascii.ascii -> bool.
Variable tf_version : string.
(** [hub.__version__]; [None] when [tensorflow_hub] could not be imported
    and [hub] is [None]. *)
Variable hub_version : option string.
(** [identifier.__class__.__name__] and [hasattr(identifier, "export")] *)
Variable class_name : HubObj -> string.
Variable has_export : HubObj -> bool.

(** The name when the caller gives none. *)
Definition default_name (identifier : hub_identifier) : prog importE string :=
  match identifier with
  | Handle s => Ret (name_of_handle is_word is_digit s)
  | HubObject o =>
      hex ← trigger Uuid4Hex;
      Ret (String.append (class_name o)
             (String.append "_" (upper (String.substring 0 5 hex))))
  end.

(** [import_from_tfhub] *)
Definition import_from_tfhub (identifier : hub_identifier) (name : option string)
    (metadata : option Metadata) : prog importE string :=
  match hub_version with
  | None => Raise (MissingDependencyException TFHUB_REQUIRED)
  | Some hub_v =>
      let context : gmap string string :=
        {[ "tensorflow" := tf_version; "tensorflow_hub" := hub_v ]} in
      name ← match name with
             | Some n => Ret n
             | None => default_name identifier
             end;
      scoped (trigger (HubRegister name MODULE_NAME None context metadata))
        (fun ctx outcome => trigger (HubRegisterExit ctx outcome))
        (fun ctx =>
           _ ← match identifier with
               | Handle s =>
                   _ ← trigger (SetEnviron "TFHUB_CACHE_DIR" (ctx_path ctx));
                   fpath ← trigger (Resolve s);
                   trigger (SetCtxOptions ctx
                              {[ "model" := s; "local_path" := fpath ]})
               | HubObject o =>
                   _ ← (if has_export o then
                          g ← trigger GetDefaultGraph;
                          session ← trigger (SessionOfGraph g);
                          scoped (trigger (SessionEnter session))
                            (fun _ outcome => trigger (SessionExit session outcome))
                            (fun sess =>
                               op ← trigger GlobalVariablesInitializer;
                               _ ← trigger (SessionRun sess op);
                               trigger (Export o (ctx_path ctx) sess))
                        else trigger (HubSavedModelSave o (ctx_path ctx)));
                   local_path ← trigger (Resolve (ctx_path ctx));
                   trigger (SetCtxOptions ctx
                              {[ "model" := class_name o; "local_path" := local_path ]})
               end;
           Ret (ctx_tag ctx))
  end.

End Importer.

(** ** The runner ([_TensorflowRunner]) *)

(** A program over some calls, as a program over more calls. *)
Fixpoint embed {E F R} (inj : forall X, E X -> F X) (p : prog E R) : prog F R :=
  match p with
  | Ret r => Ret r
  | Raise e => Raise e
  | Vis ev k => Vis (inj _ ev) (fun r => embed inj (k r))
  end.

(** A value or an exception, as a program. *)
Definition lift_result {E X} (r : result X) : prog E X :=
  match r with
  | inl e => Raise e
  | inr x => Ret x
  end.

(** [needle in hay] on strings. *)
Fixpoint contains (needle hay : string) : bool :=
  starts_with needle hay
  || match hay with
     | EmptyString => false
     | String _ rest => contains needle rest
     end.

(** [self._config_proto] *)
Record config_proto := {
  allow_soft_placement : bool;
  log_device_placement : bool;
  intra_op_parallelism_threads : Z;
  inter_op_parallelism_threads : Z;
}.

Section Runner.
Context {V Spec Func Options Raw BatchOptions Device Proto Session Op : Type}.

Abbreviation model_object := (@object V Spec Func).
Abbreviation model_attr := (@attr V Spec Func).

(** [input_data: Union[List, np.ndarray, tf.Tensor]]; the [isinstance] test
    of [_run_batch] tells a tensor from the rest. *)
Inductive input_data :=
  | TensorInput (t : V)
  | RawInput (r : Raw).

(** [self._predict_fn]: an attribute of the loaded model, or the serving
    signature of a legacy model. *)
Inductive predict_fn :=
  | PredictAttr (a : model_attr)
  | PredictSignature (v : V).

(** The external calls of the runner; those of [load] and of a wrapped call
    are among them. *)
Inductive runE : Type -> Type :=
  | TfDevice (device_id : string) : runE Device
  | SetVisibleDevices (device_id kind : string) : runE unit
  | ListLocalDevices : runE (list string)
  | ConfigProto (config : config_proto) : runE Proto
  | SessionNew (config : Proto) : runE Session
  | AttrGetItem (a : model_attr) (key : string) : runE V
  | DeviceEnter (d : Device) : runE unit
  | DeviceExit (d : Device) (outcome : option exn) : runE unit
  | ConvertToTensor (r : Raw) (dtype : string) : runE V
  | VariablesInitializer : runE Op
  | RunOp (s : Session) (op : Op) : runE unit
  | CallAttr (a : model_attr) (args : list V) : runE V
  | CallSignature (v : V) (args : list V) : runE V
  | Numpy (res : V) : runE V
  | GetItem (res : V) (key : string) : runE V
  | OfLoad {X} (ev : @loadE V Spec Func Options X) : runE X
  | OfCall {X} (ev : @callE V Spec Func X) : runE X.

Variable TF2 : bool.
Variable tf_version : string.
Variable env : tf_env.
Variable get_restored_functions : model_object -> gmap string Func.
Variable get_arg_names : Func -> option (list string).
Variable get_input_signatures :
  Func -> list (option (list Spec) * option (gmap string Spec)).

(** The runner after [__init__].  Modelled from the spec: the base [Runner],
    which is not part of this file, records the tag as [name], the resource
    quota and the batch options. *)
Record runner := {
  r_name : string;
  r_resource_quota : resource_quota;
  r_batch_options : option BatchOptions;
  r_device : Device;
  r_config_proto : config_proto;
  r_predict_fn_name : string;
}.

(** The runner after [_setup]. *)
Record ready_runner := {
  rr_runner : runner;
  rr_session : Session;
  rr_model : model_object;
  rr_predict_fn : predict_fn;
}.

(** [__init__], with [_configure] in its place. *)
Definition runner_init (tag predict_fn_name device_id : string)
    (quota : resource_quota) (batch_options : option BatchOptions)
  : prog runE runner :=
  device ← trigger (TfDevice device_id);
  _ ← (if TF2 && contains "GPU" device_id
       then trigger (SetVisibleDevices device_id "GPU")
       else Ret tt);
  intra ← lift_result (num_concurrency_per_replica env quota);
  inter ← lift_result (num_concurrency_per_replica env quota);
  let config :=
    {| allow_soft_placement := true;
       log_device_placement := false;
       intra_op_parallelism_threads := intra;
       inter_op_parallelism_threads := inter |} in
  devices ← trigger ListLocalDevices;
  _ ← py_assert (existsb (contains device_id) devices) "";
  Ret {| r_name := tag;
         r_resource_quota := quota;
         r_batch_options := batch_options;
         r_device := device;
         r_config_proto := config;
         r_predict_fn_name := predict_fn_name |}.

(** [load_runner]; an omitted keyword argument is [None]. *)
Definition load_runner (tag : string) (predict_fn_name device_id : option string)
    (quota : resource_quota) (batch_options : option BatchOptions)
  : prog runE runner :=
  runner_init tag (default "__call__" predict_fn_name)
              (default "CPU:0" device_id) quota batch_options.

(** [_setup] *)
Definition _setup (self : runner) : prog runE ready_runner :=
  proto ← trigger (ConfigProto (r_config_proto self));
  session ← trigger (SessionNew proto);
  model ← embed (@OfLoad)
            (load TF2 tf_version get_restored_functions get_arg_names
                  get_input_signatures (r_name self) None None None);
  fn ← (if negb TF2 then
          match (model : model_object) !! "signatures" with
          | None => Raise (AttributeError "signatures")
          | Some signatures =>
              v ← trigger (AttrGetItem signatures "serving_default");
              Ret (PredictSignature v)
          end
        else
          match (model : model_object) !! r_predict_fn_name self with
          | None => Raise (AttributeError (r_predict_fn_name self))
          | Some a => Ret (PredictAttr a)
          end);
  Ret {| rr_runner := self; rr_session := session; rr_model := model;
         rr_predict_fn := fn |}.

(** [self._predict_fn(input_data)] *)
Definition call_predict (fn : predict_fn) (x : V) : prog runE V :=
  match fn with
  | PredictAttr (AFunc f) => embed (@OfCall) (trigger (Invoke f [x] []))
  | PredictAttr (AWrapper w) => embed (@OfCall) (call w [x] [])
  | PredictAttr a => trigger (CallAttr a [x])
  | PredictSignature v => trigger (CallSignature v [x])
  end.

(** [_run_batch] *)
Definition _run_batch (self : ready_runner) (input : input_data) : prog runE V :=
  let device := r_device (rr_runner self) in
  scoped (trigger (DeviceEnter device))
    (fun _ outcome => trigger (DeviceExit device outcome))
    (fun _ =>
       x ← match input with
           | TensorInput t => Ret t
           | RawInput r => trigger (ConvertToTensor r "float32")
           end;
       _ ← (if TF2 then
              _ ← trigger VariablesInitializer; Ret tt
            else
              op ← trigger VariablesInitializer;
              trigger (RunOp (rr_session self) op));
       res ← call_predict (rr_predict_fn self) x;
       if TF2 then trigger (Numpy res) else trigger (GetItem res "prediction")).

End Runner.

(** ** More concrete collaborators *)

Module Sample.

(** A wrapper over three names, one positional spec and two keyword specs. *)
Definition keyword_wrapper : @tf_function_wrapper nat nat :=
  init 0%nat (Some ["a"; "b"; "c"]) (Some [7%nat])
       (Some {[ "b" := 8%nat; "c" := 9%nat ]}).

Definition keyword_lookup : gmap string nat :=
  dict_update (dict_of_pairs (zip ["a"; "b"; "c"] [7%nat]))
              {[ "b" := 8%nat; "c" := 9%nat ]}.

(** A loaded model with a restored function and an attribute that is none. *)
Definition versioned_model : @object nat nat nat :=
  {[ "predict" := AFunc 1%nat; "version" := AOther 3%nat ]}.

(** Two physical GPUs listed by a recent TensorFlow; a host without GPU. *)
Definition two_gpus : tf_env :=
  {| config_list_physical_devices :=
       Some (fun kind => if decide (kind = "GPU")
                         then ["/physical_device:GPU:0"; "/physical_device:GPU:1"]
                         else []);
     test_is_gpu_available := false |}.

Definition no_gpu : tf_env :=
  {| config_list_physical_devices := Some (fun _ => []);
     test_is_gpu_available := false |}.

Definition cpu_quota : resource_quota := {| cpu := 4; on_gpu := false |}.
Definition quarter_quota : resource_quota := {| cpu := 1 # 4; on_gpu := false |}.

(** The word characters and the digits of ASCII. *)
Definition ascii_digit (c : Ascii.ascii) : bool :=
  let n := Ascii.nat_of_ascii c in (48 <=? n)%nat && (n <=? 57)%nat.

Definition ascii_word (c : Ascii.ascii) : bool :=
  let n := Ascii.nat_of_ascii c in
  ascii_digit c
  || ((65 <=? n)%nat && (n <=? 90)%nat)
  || ((97 <=? n)%nat && (n <=? 122)%nat)
  || (n =? 95)%nat.

Definition plain_info : model_info :=
  {| info_path := "/store/m";
     info_context := {[ "tensorflow" := "2.4.0" ]};
     info_options := ∅ |}.

Definition hub_info : model_info :=
  {| info_path := "/store/m";
     info_context := {[ "tensorflow_hub" := "0.12.0" ]};
     info_options := {[ "local_path" := "/store/m/hub" ]} |}.

Definition hub_info_without_path : model_info :=
  {| info_path := "/store/m";
     info_context := {[ "tensorflow_hub" := "0.12.0" ]};
     info_options := ∅ |}.

(** A store and a TensorFlow that answer every call of [load]. *)
Definition loader (info : model_info) (tracked : bool)
  : handler (@loadE nat nat nat nat) unit :=
  fun X ev w =>
    match ev in loadE X return result X * unit with
    | StoreGet _ => (inr info, w)
    | HubKerasLayer _ => (inr ∅, w)
    | HubModule _ => (inr ∅, w)
    | GetModuleProtoPath p => (inr (p +:+ "/tfhub_module.pb"), w)
    | GfileExists _ => (inr true, w)
    | HasLoadOptions => (inr false, w)
    | LoadV2 _ _ _ => (inr Example.model, w)
    | SavedModelLoad _ => (inr Example.model, w)
    | IsAutoTrackable _ => (inr tracked, w)
    | PrettyFormatRestoredModel _ => (inr "summary", w)
    | LogWarning _ => (inr tt, w)
    | LogInfo _ => (inr tt, w)
    end.

(** [str] on the bytes of a plain path: the bytes literal. *)
Definition bytes_literal (b : string) : string := "b'" +:+ b +:+ "'".

(** A store and a file system that answer every call of [save]. *)
Definition saver : handler (@saveE nat nat nat nat) unit :=
  fun X ev w =>
    match ev in saveE X return result X * unit with
    | StoreRegister _ _ _ _ _ => (inr Example.ctx, w)
    | StoreRegisterExit _ _ => (inr tt, w)
    | IsDir _ => (inr true, w)
    | CopyTree _ _ => (inr tt, w)
    | SavedModelSave _ _ _ _ => (inr tt, w)
    | SaveLogWarning _ => (inr tt, w)
    end.

(** A hub whose resolver answers or fails. *)
Definition hub (resolves : bool) : handler (@importE nat nat nat nat nat nat) unit :=
  fun X ev w =>
    match ev in importE X return result X * unit with
    | HubRegister _ _ _ _ _ => (inr Example.ctx, w)
    | HubRegisterExit _ _ => (inr tt, w)
    | SetCtxOptions _ _ => (inr tt, w)
    | SetEnviron _ _ => (inr tt, w)
    | Resolve _ =>
        (if resolves then inr "/cache/module" else inl (ExternalError "unresolved"), w)
    | Uuid4Hex => (inr "3f2a9c", w)
    | GetDefaultGraph => (inr 0%nat, w)
    | SessionOfGraph _ => (inr 0%nat, w)
    | SessionEnter s => (inr s, w)
    | SessionExit _ _ => (inr tt, w)
    | GlobalVariablesInitializer => (inr 0%nat, w)
    | SessionRun _ _ => (inr tt, w)
    | Export _ _ _ => (inr tt, w)
    | HubSavedModelSave _ _ => (inr tt, w)
    end.

(** A TensorFlow with the given local devices, over the store [loader]; it
    refuses to restrict the visible devices to an identifier string. *)
Definition tf (devices : list string) (info : model_info)
  : handler (@runE nat nat nat nat nat nat nat nat nat) unit :=
  fun X ev w =>
    match ev in runE X return result X * unit with
    | TfDevice _ => (inr 0%nat, w)
    | SetVisibleDevices _ _ => (inl (ExternalError "ValueError: Unrecognized device"), w)
    | ListLocalDevices => (inr devices, w)
    | ConfigProto _ => (inr 0%nat, w)
    | SessionNew _ => (inr 0%nat, w)
    | AttrGetItem _ _ => (inr 0%nat, w)
    | DeviceEnter _ => (inr tt, w)
    | DeviceExit _ _ => (inr tt, w)
    | ConvertToTensor r _ => (inr r, w)
    | VariablesInitializer => (inr 0%nat, w)
    | RunOp _ _ => (inr tt, w)
    | CallAttr _ _ => (inr 0%nat, w)
    | CallSignature v _ => (inr v, w)
    | Numpy res => (inr res, w)
    | GetItem res _ => (inr res, w)
    | OfLoad ev' => loader info true _ ev' w
    | OfCall ev' => pure_handler Example.cast Example.orig _ ev' w
    end.

Definition config : config_proto :=
  {| allow_soft_placement := true; log_device_placement := false;
     intra_op_parallelism_threads := 4; inter_op_parallelism_threads := 4 |}.

Definition cpu_runner : @runner nat nat :=
  {| r_name := "m:1"; r_resource_quota := cpu_quota; r_batch_options := None;
     r_device := 0%nat; r_config_proto := config; r_predict_fn_name := "predict" |}.

(** A modern-mode runner whose predict function is a hooked wrapper. *)
Definition wrapped_runner : @ready_runner nat nat nat nat nat nat :=
  {| rr_runner := cpu_runner; rr_session := 0%nat; rr_model := Example.model;
     rr_predict_fn := PredictAttr (AWrapper Example.wrapper) |}.

(** A legacy-mode runner on its serving signature. *)
Definition legacy_runner : @ready_runner nat nat nat nat nat nat :=
  {| rr_runner := cpu_runner; rr_session := 0%nat; rr_model := Example.model;
     rr_predict_fn := PredictSignature 5%nat |}.

End Sample.

(** * Properties *)

(** ** Programs and runs *)

Lemma exec_raise {E R W} (h : handler E W) (e : exn) (w : W) :
  exec h (Raise e : prog E R) w = ([], (inl e, w)).
Proof. reflexivity. Qed.

Lemma exec_bind {E A B W} (h : handler E W) (p : prog E A) (f : A -> prog E B) (w : W) :
  exec h (bind p f) w =
  match exec h p w with
  | (t, (inr a, w')) => let '(t', out) := exec h (f a) w' in (t ++ t', out)
  | (t, (inl e, w')) => (t, (inl e, w'))
  end.
Proof.
  revert w. induction p as [a|e|X ev k IH]; intros w; simpl.
  - destruct (exec h (f a) w) as [t out]. reflexivity.
  - reflexivity.
  - destruct (h X ev w) as [r w']. rewrite IH.
    destruct (exec h (k r) w') as [t [[e|a] w'']]; simpl; [reflexivity|].
    destruct (exec h (f a) w'') as [t' out]. reflexivity.
Qed.

Lemma exec_trigger {E X W} (h : handler E W) (ev : E X) (w : W) :
  exec h (trigger ev) w = ([ev_of ev], h X ev w).
Proof.
  unfold trigger. simpl. destruct (h X ev w) as [[e|x] w']; reflexivity.
Qed.

(** ** The callable wrapper *)

Section WrapperFacts.
Context {V Spec Func : Type}.
Implicit Types (w : @tf_function_wrapper Spec Func) (d : gmap string Spec).
Implicit Types (args : list V) (kwargs : list (string * V)).

(** A wrapper that holds a lookup never takes the pass-through branch. *)
Lemma call_validated w d args kwargs :
  kwarg_specs w = Some d -> call w args kwargs = validated_call w args kwargs.
Proof. unfold call. intros ->. destruct (arg_specs w); reflexivity. Qed.

(** [__init__] always stores a lookup. *)
Lemma init_kwarg_specs (origin : Func) (names : option (list string))
    (specs : option (list Spec)) (kws : option (gmap string Spec)) :
  kwarg_specs (init origin names specs kws)
  = Some (dict_update (dict_of_pairs (zip (default [] names) (default [] specs)))
                      (default ∅ kws)).
Proof. reflexivity. Qed.

Lemma check_kwargs_known d kwargs :
  (forall k, k ∈ kwargs.*1 -> is_Some (d !! k)) ->
  check_kwargs (Func := Func) (Some d) kwargs = Ret tt.
Proof.
  induction kwargs as [|[k v] rest IH]; intros Hk; simpl; [reflexivity|].
  destruct (Hk k) as [s Hs]; [set_solver|]. rewrite Hs.
  apply IH. intros j Hj. apply Hk. rewrite fmap_cons. right. exact Hj.
Qed.

Lemma check_kwargs_first_unknown d kwargs pre k post :
  kwargs.*1 = pre ++ k :: post ->
  (forall j, j ∈ pre -> is_Some (d !! j)) ->
  d !! k = None ->
  check_kwargs (Func := Func) (Some d) kwargs = Raise (TypeError (UnexpectedKeyword k)).
Proof.
  revert pre. induction kwargs as [|[k0 v] rest IH]; intros pre Hsplit Hpre Hk.
  - destruct pre; discriminate.
  - destruct pre as [|j pre]; simpl in Hsplit; injection Hsplit as -> Hrest; simpl.
    + rewrite Hk. reflexivity.
    + destruct (Hpre j) as [s Hs]; [set_solver|]. rewrite Hs.
      apply (IH pre); [assumption| |assumption].
      intros i Hi. apply Hpre. set_solver.
Qed.

(** Among the supplied keyword names, one that the lookup lacks comes first. *)
Lemma first_unknown_keyword d (keys : list string) k :
  k ∈ keys -> d !! k = None ->
  exists pre k' post,
    keys = pre ++ k' :: post /\ (forall j, j ∈ pre -> is_Some (d !! j)) /\ d !! k' = None.
Proof.
  induction keys as [|k0 keys IH]; intros Hin Hk; [set_solver|].
  destruct (d !! k0) as [s|] eqn:H0.
  - assert (k ∈ keys) as Hin'.
    { apply elem_of_cons in Hin as [->|?]; [congruence|assumption]. }
    destruct (IH Hin' Hk) as (pre & k' & post & -> & Hpre & Hk').
    exists (k0 :: pre), k', post. split; [reflexivity|]. split; [|assumption].
    intros j Hj. apply elem_of_cons in Hj as [->|Hj]; [eauto|auto].
  - exists [], k0, keys. split; [reflexivity|]. split; [|assumption].
    intros j Hj. set_solver.
Qed.

Lemma exec_cast_args cast orig (pairs : list (V * Spec)) :
  exec (pure_handler cast orig) (cast_args (Func := Func) pairs) tt
  = (map (fun p => ev_of (CastTensorBySpec p.1 p.2)) pairs,
     (inr (map (fun p => cast p.1 p.2) pairs), tt)).
Proof.
  induction pairs as [|[a s] rest IH]; [reflexivity|].
  simpl. unfold mbind, prog_bind. rewrite exec_bind, IH. simpl.
  rewrite app_nil_r. reflexivity.
Qed.

Lemma exec_cast_kwargs cast orig d kwargs :
  (forall k, k ∈ kwargs.*1 -> is_Some (d !! k)) ->
  exec (pure_handler cast orig) (cast_kwargs (Func := Func) (Some d) kwargs) tt
  = (map (fun p => ev_of (CastTensorBySpec p.1 p.2)) (kwarg_coercions d kwargs),
     (inr (coerced_kwargs cast d kwargs), tt)).
Proof.
  induction kwargs as [|[k v] rest IH]; intros Hk; [reflexivity|].
  destruct (Hk k) as [s Hs]; [set_solver|].
  unfold kwarg_coercions, coerced_kwargs. simpl. rewrite Hs. simpl.
  unfold mbind, prog_bind. rewrite exec_bind, IH; [simpl; rewrite app_nil_r; reflexivity|].
  intros j Hj. apply Hk. rewrite fmap_cons. right. exact Hj.
Qed.

Lemma zip_with_take_shorter {A B C} (f : A -> B -> C) (l : list A) (k : list B) :
  zip_with f l k = zip_with f (take (length k) l) k.
Proof.
  revert k. induction l as [|a l IH]; intros [|b k]; simpl; try reflexivity.
  f_equal. apply IH.
Qed.

Lemma zip_with_zip_map {A B C} (f : A -> B -> C) (l : list A) (k : list B) :
  map (fun p => f p.1 p.2) (zip l k) = zip_with f l k.
Proof.
  revert k. induction l as [|a l IH]; intros [|b k]; simpl; try reflexivity.
  f_equal. apply IH.
Qed.

(** A validated call whose keyword names are all known and clash with no
    positional name: what it asks of its collaborators, in order, and what
    it returns, when the collaborators answer. *)
Lemma exec_validated_call cast orig w names specs d args kwargs :
  arg_names w = Some names ->
  arg_specs w = Some specs ->
  kwarg_specs w = Some d ->
  (forall k, k ∈ kwargs.*1 -> is_Some (d !! k)) ->
  arg_keys names args ∩ kwarg_keys kwargs = ∅ ->
  exec (pure_handler cast orig) (call w args kwargs) tt
  = (map (fun p => ev_of (CastTensorBySpec p.1 p.2))
         (zip args specs ++ kwarg_coercions d kwargs)
     ++ [ev_of (Invoke (origin_func w) (zip_with cast args specs)
                       (coerced_kwargs cast d kwargs))],
     (inr (orig (origin_func w) (zip_with cast args specs)
                (coerced_kwargs cast d kwargs)), tt)).
Proof.
  intros Hn Hs Hd Hk Hamb. rewrite (call_validated w d) by assumption.
  unfold validated_call. rewrite Hd, check_kwargs_known by assumption.
  unfold mbind, prog_bind. simpl bind. rewrite Hn. simpl.
  rewrite decide_True by assumption. rewrite Hs.
  rewrite exec_bind, exec_cast_args.
  rewrite exec_bind, exec_cast_kwargs by assumption.
  rewrite exec_trigger. simpl. rewrite zip_with_zip_map.
  rewrite map_app, <- app_assoc. reflexivity.
Qed.

Lemma dict_of_pairs_acc (names : list string) (specs : list Spec) d k :
  foldl (fun d kv => <[kv.1 := kv.2]> d) d (zip names specs) !! k
  = match spec_zip_lookup names specs k with
    | Some s => Some s
    | None => d !! k
    end.
Proof.
  revert specs d. induction names as [|n names IH]; intros [|s specs] d;
    simpl; try reflexivity.
  rewrite IH. destruct (spec_zip_lookup names specs k); [reflexivity|].
  simpl. destruct (decide (n = k)) as [->|Hne].
  - apply lookup_insert_eq.
  - apply lookup_insert_ne. assumption.
Qed.

Lemma dict_of_pairs_lookup (names : list string) (specs : list Spec) k :
  dict_of_pairs (zip names specs) !! k = spec_zip_lookup names specs k.
Proof.
  unfold dict_of_pairs. rewrite dict_of_pairs_acc, lookup_empty.
  destruct (spec_zip_lookup names specs k); reflexivity.
Qed.

Lemma dict_update_lookup d (other : gmap string Spec) k :
  dict_update d other !! k
  = match other !! k with Some s => Some s | None => d !! k end.
Proof.
  unfold dict_update. rewrite lookup_union.
  destruct (other !! k), (d !! k); reflexivity.
Qed.

Lemma spec_zip_lookup_is_Some (names : list string) (specs : list Spec) k :
  is_Some (spec_zip_lookup names specs k) <-> k ∈ take (length specs) names.
Proof.
  revert specs. induction names as [|n names IH]; intros [|s specs]; simpl.
  - split; [intros [? ?]; discriminate | intros H; inversion H].
  - split; [intros [? ?]; discriminate | intros H; inversion H].
  - split; [intros [? ?]; discriminate | intros H; inversion H].
  - rewrite elem_of_cons, <- IH.
    destruct (spec_zip_lookup names specs k) as [s'|].
    + split; eauto.
    + destruct (decide (n = k)) as [->|Hne].
      * split; eauto.
      * split; [intros [? ?]; discriminate|].
        intros [->|[? ?]]; [congruence|discriminate].
Qed.

(** C1: a wrapper built with no positional and no keyword specs forwards
    nothing.  [__init__] always stores a dict in [kwarg_specs], so the
    pass-through test of [__call__] never holds: built with the default
    [None] specs, every call ends in a [TypeError] and the original callable
    is not reached; built with an empty spec list, the positional arguments
    of a call are all left out of the delegated call. *)
Theorem C1_no_spec_wrapper_never_forwards (origin : Func)
    (names : option (list string)) args kwargs :
  (exists m,
     call (init (Spec := Spec) origin names None None) args kwargs
     = Raise (TypeError m))
  /\ (forall (names' : list string) (kws : option (gmap string Spec)),
        call (init origin (Some names') (Some []) kws) args []
        = trigger (Invoke origin [] [])).
Proof.
  split.
  - rewrite (call_validated _ _ _ _ (init_kwarg_specs origin names None None)).
    unfold validated_call. rewrite init_kwarg_specs. simpl default.
    assert (forall l : list string, zip l (@nil Spec) = []) as Hz
      by (intros [|? ?]; reflexivity).
    rewrite Hz. destruct kwargs as [|[k v] rest]; simpl.
    + destruct names as [names|]; simpl; [|eauto].
      destruct (decide _); eauto.
    + rewrite dict_update_lookup, !lookup_empty. simpl. eauto.
  - intros names' kws.
    rewrite (call_validated _ _ _ _ (init_kwarg_specs origin _ _ kws)).
    unfold validated_call. simpl.
    rewrite decide_True by (unfold kwarg_keys; simpl; apply (right_absorb_L ∅ (∩))).
    assert (zip args (@nil Spec) = []) as -> by (destruct args; reflexivity).
    reflexivity.
Qed.

(** C2, as the code has it: with ordered names, a positional spec list of
    length [n] and a lookup, a call with more than [n] positional arguments
    whose keyword names are all known and clash with no positional name is
    not rejected by the wrapper; positions 1..n are coerced against their
    specs in order, then the keyword arguments, and the original callable
    receives exactly the [n] coerced values: the positions beyond [n] do not
    reach it. *)
Theorem C2_extra_positional_not_forwarded cast orig w names specs d args kwargs :
  arg_names w = Some names ->
  arg_specs w = Some specs ->
  kwarg_specs w = Some d ->
  (length specs < length args)%nat ->
  (forall k, k ∈ kwargs.*1 -> is_Some (d !! k)) ->
  arg_keys names args ∩ kwarg_keys kwargs = ∅ ->
  let received := zip_with cast (take (length specs) args) specs in
  exec (pure_handler cast orig) (call w args kwargs) tt
  = (map (fun p => ev_of (CastTensorBySpec p.1 p.2))
         (zip (take (length specs) args) specs ++ kwarg_coercions d kwargs)
     ++ [ev_of (Invoke (origin_func w) received (coerced_kwargs cast d kwargs))],
     (inr (orig (origin_func w) received (coerced_kwargs cast d kwargs)), tt))
  /\ length received = length specs.
Proof.
  intros Hn Hs Hd Hlen Hk Hamb received. split.
  - rewrite (exec_validated_call cast orig w names specs d) by assumption.
    subst received.
    rewrite <- (zip_with_take_shorter cast args specs).
    rewrite <- (zip_with_take_shorter pair args specs).
    reflexivity.
  - subst received. rewrite length_zip_with, length_take. lia.
Qed.

(** C3, as the code has it: when a call supplies a keyword name that the
    merged lookup lacks, the call is a [TypeError] naming one offending key,
    the first one in the order of the call (the key itself when it is the
    only offending one);
    the call makes no coercion and does not reach the original callable,
    whatever the collaborators are. *)
Theorem C3_unknown_keyword_rejected w d args kwargs k :
  kwarg_specs w = Some d ->
  k ∈ kwargs.*1 ->
  d !! k = None ->
  exists pre k' post,
    kwargs.*1 = pre ++ k' :: post
    /\ (forall j, j ∈ pre -> is_Some (d !! j))
    /\ d !! k' = None
    /\ ((forall j, j ∈ kwargs.*1 -> d !! j = None -> j = k) -> k' = k)
    /\ call w args kwargs = Raise (TypeError (UnexpectedKeyword k'))
    /\ (forall W (h : handler callE W) (w0 : W),
          exec h (call w args kwargs) w0
          = ([], (inl (TypeError (UnexpectedKeyword k')), w0))).
Proof.
  intros Hd Hin Hk.
  destruct (first_unknown_keyword d _ k Hin Hk) as (pre & k' & post & Hsplit & Hpre & Hk').
  assert (call w args kwargs = Raise (TypeError (UnexpectedKeyword k'))) as Hcall.
  { rewrite (call_validated w d) by assumption. unfold validated_call.
    rewrite Hd, (check_kwargs_first_unknown d kwargs pre k' post) by assumption.
    reflexivity. }
  exists pre, k', post. repeat split; try assumption.
  - intros Honly. apply Honly; [|assumption].
    rewrite Hsplit. apply elem_of_app. right. apply elem_of_cons. left. reflexivity.
  - intros W h w0. rewrite Hcall. reflexivity.
Qed.


(** C5: the lookup that [__init__] stores is the map obtained by zipping the
    ordered names against the positional specs, pairing up to the shorter
    list, overlaid with the explicit keyword specs, which take precedence;
    its keys are the explicit keyword names and the names that were paired. *)
Theorem C5_merged_spec_lookup (origin : Func) (names : option (list string))
    (specs : option (list Spec)) (kws : option (gmap string Spec)) :
  exists m,
    kwarg_specs (init origin names specs kws) = Some m
    /\ (forall k, m !! k
                 = spec_merged_lookup (default [] names) (default [] specs)
                                      (default ∅ kws) k)
    /\ (forall k, k ∈ dom m <->
                  k ∈ dom (default ∅ kws)
                  \/ k ∈ take (length (default [] specs)) (default [] names)).
Proof.
  eexists. split; [apply init_kwarg_specs|].
  assert (forall k,
    dict_update (dict_of_pairs (zip (default [] names) (default [] specs)))
                (default ∅ kws) !! k
    = spec_merged_lookup (default [] names) (default [] specs) (default ∅ kws) k)
    as Hlookup.
  { intros k. rewrite dict_update_lookup, dict_of_pairs_lookup. reflexivity. }
  split; [exact Hlookup|].
  intros k. rewrite !elem_of_dom, Hlookup. unfold spec_merged_lookup.
  rewrite <- spec_zip_lookup_is_Some.
  destruct (default ∅ kws !! k) as [s|].
  - split; eauto.
  - split; [eauto|]. intros [[? ?]|?]; [discriminate|assumption].
Qed.

End WrapperFacts.

(** ** Bulk application *)

Section HookFacts.
Context {V Spec Func : Type}.
Variable get_restored_functions : @object V Spec Func -> gmap string Func.
Variable get_arg_names : Func -> option (list string).
Variable get_input_signatures :
  Func -> list (option (list Spec) * option (gmap string Spec)).

Abbreviation hook_step := (hook_one (V := V) get_arg_names get_input_signatures).

Lemma hook_one_other (m : @object V Spec Func) (kf : string * Func) k :
  kf.1 ≠ k -> hook_step m kf !! k = m !! k.
Proof.
  destruct kf as [k0 func]. simpl. intros Hne.
  destruct (get_input_signatures func) as [|[a kw] rest]; [reflexivity|].
  unfold object in *. apply lookup_insert_ne. assumption.
Qed.

Lemma hook_fold_other (l : list (string * Func)) (m : @object V Spec Func) k :
  k ∉ l.*1 -> foldl hook_step m l !! k = m !! k.
Proof.
  revert m. induction l as [|kf l IH]; intros m Hk; [reflexivity|].
  simpl. rewrite IH.
  - apply hook_one_other. intros <-. apply Hk. rewrite fmap_cons. left.
  - intros Hin. apply Hk. rewrite fmap_cons. right. assumption.
Qed.

Lemma hook_fold_at (l : list (string * Func)) (m : @object V Spec Func) k func :
  NoDup l.*1 -> (k, func) ∈ l ->
  foldl hook_step m l !! k = hook_step m (k, func) !! k.
Proof.
  revert m. induction l as [|kf l IH]; intros m Hnd Hin; [inversion Hin|].
  rewrite fmap_cons in Hnd. apply NoDup_cons in Hnd as [Hfresh Hnd].
  apply elem_of_cons in Hin as [<-|Hin]; simpl.
  - apply hook_fold_other. assumption.
  - rewrite (IH _ Hnd Hin).
    assert (kf.1 ≠ k) as Hne.
    { intros <-. apply Hfresh. apply (list_elem_of_fmap_2 fst) in Hin. exact Hin. }
    destruct (get_input_signatures func) as [|[a kw] rest] eqn:Hs; simpl; rewrite Hs.
    + apply hook_one_other. assumption.
    + unfold object in *. rewrite !lookup_insert_eq. reflexivity.
Qed.

End HookFacts.

(** ** The loader *)

Section LoaderFacts.
Context {V Spec Func Options : Type}.
Variable TF2 : bool.
Variable tf_version : string.
Variable get_restored_functions : @object V Spec Func -> gmap string Func.
Variable get_arg_names : Func -> option (list string).
Variable get_input_signatures :
  Func -> list (option (list Spec) * option (gmap string Spec)).

(** C8: when the store's entry for the tag has [tensorflow_hub] in its
    framework context and [load_as_wrapper] is left [None], [load] fails with
    the assertion's error right after the store lookup: no path is read from
    the options, nothing is resolved and nothing is loaded. *)
Theorem C8_hub_load_requires_choice {W} (h : handler loadE W) (w0 w1 : W)
    (tag : string) (tfhub_tags : option (list string))
    (tfhub_options : option Options) (info : model_info) :
  h _ (StoreGet tag) w0 = (inr info, w1) ->
  is_Some (info_context info !! "tensorflow_hub") ->
  exec h (load (Options := Options) TF2 tf_version get_restored_functions
               get_arg_names get_input_signatures tag tfhub_tags tfhub_options None) w0
  = ([ev_of (StoreGet tag)], (inl (AssertionError LOAD_AS_WRAPPER_MESSAGE), w1)).
Proof.
  intros Hget Hhub. unfold load, mbind, prog_bind.
  rewrite exec_bind, exec_trigger, Hget.
  rewrite decide_True by assumption. reflexivity.
Qed.

End LoaderFacts.

(** ** The persister *)

Section PersisterFacts.
Context {Model Signatures Options Metadata : Type}.
Variable TF2 : bool.
Variable tf_version : string.
Variable str_options : Options -> string.
Variable str_bytes : string -> string.

(** C9: when the model argument is a path that is not a directory, [save]
    fails: the assertion is raised inside the registration scope, right
    after the directory test, and the scope is left with that error; no
    artifact is copied and nothing is saved. *)
Theorem C9_save_rejects_non_directory {W} (h : handler saveE W) (w0 w1 w2 w3 : W)
    (name : string) (p : path_like) (signatures : option Signatures)
    (options : option Options) (metadata : option Metadata) (ctx : store_ctx)
    (exit_result : result unit) :
  h _ (StoreRegister name MODULE_NAME None {[ "tensorflow" := tf_version ]} metadata) w0
    = (inr ctx, w1) ->
  h _ (IsDir p) w1 = (inr false, w2) ->
  h _ (StoreRegisterExit ctx (Some (AssertionError ""))) w2 = (exit_result, w3) ->
  exec h (save (Model := Model) TF2 tf_version str_options str_bytes name
               (ModelPath p) signatures options metadata) w0
  = ([ev_of (StoreRegister name MODULE_NAME None {[ "tensorflow" := tf_version ]} metadata);
      ev_of (IsDir p);
      ev_of (StoreRegisterExit ctx (Some (AssertionError "")))],
     (inl (match exit_result with inl e => e | inr _ => AssertionError "" end), w3)).
Proof.
  intros Hreg Hdir Hexit. unfold save, with_register, mbind, prog_bind.
  rewrite exec_bind, exec_trigger, Hreg.
  simpl. rewrite Hdir. simpl. rewrite Hexit.
  destruct exit_result as [e|[]]; reflexivity.
Qed.

End PersisterFacts.

(** ** The runner's derived properties *)

Lemma _is_gpu_available_spec (env : tf_env) :
  _is_gpu_available env = inr (bool_decide (gpu_available env)).
Proof.
  destruct env as [[f|] t]; unfold _is_gpu_available, list_physical_devices; simpl.
  - f_equal. apply bool_decide_ext. unfold gpu_available. simpl.
    destruct (f "GPU"); simpl; split; intros H; try lia; try congruence.
  - f_equal. symmetry. destruct t.
    + apply bool_decide_eq_true_2. reflexivity.
    + apply bool_decide_eq_false_2. unfold gpu_available. simpl. discriminate.
Qed.

(** [round] returns an integer nearest to its argument. *)
Lemma py_round_nearest (x : Q) :
  (Qabs (inject_Z (py_round x) - x) <= 1 # 2)%Q.
Proof.
  unfold py_round.
  pose proof (Qfloor_le x) as Hlo. pose proof (Qlt_floor x) as Hhi.
  rewrite inject_Z_plus in Hhi. change (inject_Z 1) with 1%Q in Hhi.
  apply Qabs_Qle_condition.
  destruct (Qcompare_spec (x - inject_Z (Qfloor x)) (1 # 2)) as [He|Hl|Hg].
  - destruct (Z.even (Qfloor x)).
    + split; lra.
    + rewrite inject_Z_plus. change (inject_Z 1) with 1%Q. split; lra.
  - split; lra.
  - rewrite inject_Z_plus. change (inject_Z 1) with 1%Q. split; lra.
Qed.

(** Where TensorFlow lists physical devices, [num_replica] is the number of
    GPU devices when the quota asks for the GPU and one is listed, else 1. *)
Lemma num_replica_listing (env : tf_env) (quota : resource_quota) f :
  config_list_physical_devices env = Some f ->
  num_replica env quota
  = inr (if decide (gpu_available env /\ on_gpu quota = true)
         then Z.of_nat (length (f "GPU")) else 1).
Proof.
  intros Hf. unfold num_replica. rewrite _is_gpu_available_spec.
  unfold list_physical_devices. rewrite Hf.
  destruct (decide (gpu_available env)) as [Hg|Hg], (on_gpu quota) eqn:Hq.
  - rewrite bool_decide_eq_true_2 by assumption. simpl.
    rewrite decide_True by (split; [assumption|reflexivity]). reflexivity.
  - rewrite bool_decide_eq_true_2 by assumption. simpl.
    rewrite decide_False by (intros [_ ?]; discriminate). reflexivity.
  - rewrite bool_decide_eq_false_2 by assumption. simpl.
    rewrite decide_False by (intros [? _]; contradiction). reflexivity.
  - rewrite bool_decide_eq_false_2 by assumption. simpl.
    rewrite decide_False by (intros [? _]; contradiction). reflexivity.
Qed.

(** [num_replica] is 1 whenever the quota does not ask for the GPU. *)
Lemma num_replica_without_gpu_quota (env : tf_env) (quota : resource_quota) :
  on_gpu quota = false -> num_replica env quota = inr 1.
Proof.
  intros Hq. unfold num_replica. rewrite _is_gpu_available_spec, Hq.
  rewrite andb_false_r. reflexivity.
Qed.

(** C6: on a TensorFlow without [tf.config.list_physical_devices], the case
    [_is_gpu_available] falls back on, with a GPU available and a quota that
    asks for it, [num_replica] does not return a number of devices: the
    unguarded listing raises [AttributeError]. *)
Theorem C6_num_replica_raises_on_legacy_tf :
  gpu_available Example.legacy_gpu_env
  /\ on_gpu Example.gpu_quota = true
  /\ _is_gpu_available Example.legacy_gpu_env = inr true
  /\ num_replica Example.legacy_gpu_env Example.gpu_quota
     = inl (AttributeError "list_physical_devices").
Proof. repeat split. Qed.

(** C7: [num_concurrency_per_replica] is exactly 1 when a GPU is available
    and the quota asks for it, whatever the CPU quota is, and otherwise the
    CPU quota rounded to a nearest integer. *)
Theorem C7_num_concurrency_per_replica (env : tf_env) (quota : resource_quota) :
  num_concurrency_per_replica env quota
  = inr (if decide (gpu_available env /\ on_gpu quota = true)
         then 1 else py_round (cpu quota))
  /\ (Qabs (inject_Z (py_round (cpu quota)) - cpu quota) <= 1 # 2)%Q.
Proof.
  split; [|apply py_round_nearest].
  unfold num_concurrency_per_replica. rewrite _is_gpu_available_spec.
  destruct (decide (gpu_available env)) as [Hg|Hg], (on_gpu quota) eqn:Hq.
  - rewrite bool_decide_eq_true_2 by assumption. simpl.
    rewrite decide_True by (split; [assumption|reflexivity]). reflexivity.
  - rewrite bool_decide_eq_true_2 by assumption. simpl.
    rewrite decide_False by (intros [_ ?]; discriminate). reflexivity.
  - rewrite bool_decide_eq_false_2 by assumption. simpl.
    rewrite decide_False by (intros [? _]; contradiction). reflexivity.
  - rewrite bool_decide_eq_false_2 by assumption. simpl.
    rewrite decide_False by (intros [? _]; contradiction). reflexivity.
Qed.

(** ** The theorems at concrete inputs *)

(** The specification's reading of C2 fails on a wrapper with one positional
    spec called with two positional arguments: the callable receives the
    coerced first argument only. *)
Lemma C2_counterexample :
  ~ spec_extra_positional_pass_through Example.cast Example.orig
      Example.wrapper [7%nat] [1%nat; 2%nat].
Proof.
  intros H. specialize (H eq_refl (le_n 2)). vm_compute in H. discriminate H.
Qed.

Lemma C2_witness :
  exec (pure_handler Example.cast Example.orig)
       (call Example.wrapper [1%nat; 2%nat] []) tt
  = ([ev_of (CastTensorBySpec 1%nat 7%nat); ev_of (Invoke 0%nat [8%nat] [])],
     (inr 1%nat, tt))
  /\ length (zip_with Example.cast (take 1 [1%nat; 2%nat]) [7%nat]) = 1%nat.
Proof.
  apply (C2_extra_positional_not_forwarded Example.cast Example.orig
           Example.wrapper ["a"; "b"] [7%nat] Example.lookup [1%nat; 2%nat] []).
  - reflexivity.
  - reflexivity.
  - reflexivity.
  - simpl. lia.
  - intros k Hk. inversion Hk.
  - vm_compute. reflexivity.
Defined.

(** The specification's reading of C3 fails on a call with two unknown
    keywords: the error names the first one, not the second. *)
Lemma C3_counterexample :
  ~ spec_unknown_keyword_error Example.wrapper Example.lookup [1%nat]
      [("z", 3%nat); ("y", 4%nat)] "y".
Proof.
  intros H.
  assert (call Example.wrapper [1%nat] [("z", 3%nat); ("y", 4%nat)]
          = Raise (TypeError (UnexpectedKeyword "z"))) as Hrun
    by (vm_compute; reflexivity).
  rewrite H in Hrun.
  - discriminate Hrun.
  - reflexivity.
  - simpl. right. left.
  - vm_compute. reflexivity.
Qed.

Lemma C3_witness :
  exists pre k' post,
    [("z", 3%nat)].*1 = pre ++ k' :: post
    /\ (forall j, j ∈ pre -> is_Some (Example.lookup !! j))
    /\ Example.lookup !! k' = None
    /\ ((forall j, j ∈ [("z", 3%nat)].*1 -> Example.lookup !! j = None -> j = "z")
        -> k' = "z")
    /\ call Example.wrapper [1%nat] [("z", 3%nat)]
       = Raise (TypeError (UnexpectedKeyword k'))
    /\ (forall W (h : handler callE W) (w0 : W),
          exec h (call Example.wrapper [1%nat] [("z", 3%nat)]) w0
          = ([], (inl (TypeError (UnexpectedKeyword k')), w0))).
Proof.
  apply (C3_unknown_keyword_rejected Example.wrapper Example.lookup
           [1%nat] [("z", 3%nat)] "z").
  - reflexivity.
  - simpl. left.
  - vm_compute. reflexivity.
Defined.



Lemma C8_witness :
  exec Example.hub_store
       (load true "2.4.0" Example.restored Example.names_of Example.signatures_of
             "m:1" None None None) tt
  = ([ev_of (StoreGet "m:1")], (inl (AssertionError LOAD_AS_WRAPPER_MESSAGE), tt)).
Proof.
  apply (C8_hub_load_requires_choice true "2.4.0" Example.restored
           Example.names_of Example.signatures_of Example.hub_store tt tt "m:1"
           None None
           {| info_path := "/store/m";
              info_context := {[ "tensorflow_hub" := "0.12.0" ]};
              info_options := {[ "local_path" := "/store/m/hub" ]} |}).
  - reflexivity.
  - vm_compute. eexists. reflexivity.
Defined.

Lemma C9_witness :
  exec Example.no_directory
       (save true "2.4.0" (fun _ : nat => "") (fun b => b) "m1"
             (ModelPath (StrPath "/tmp/model.h5")) None None None) tt
  = ([ev_of (StoreRegister "m1" MODULE_NAME None {[ "tensorflow" := "2.4.0" ]} None);
      ev_of (IsDir (StrPath "/tmp/model.h5"));
      ev_of (StoreRegisterExit Example.ctx (Some (AssertionError "")))],
     (inl (AssertionError ""), tt)).
Proof.
  apply (C9_save_rejects_non_directory true "2.4.0" (fun _ : nat => "")
           (fun b => b) Example.no_directory tt tt tt tt "m1"
           (StrPath "/tmp/model.h5") None None None Example.ctx (inr tt)).
  - reflexivity.
  - reflexivity.
  - reflexivity.
Defined.

(** * Further properties of the code *)

(** ** The runner's derived properties *)

(** X1: when [num_replica] returns, it returns at least 1. *)
Theorem num_replica_at_least_one (env : tf_env) (quota : resource_quota) (n : Z) :
  num_replica env quota = inr n -> 1 <= n.
Proof.
  unfold num_replica. rewrite _is_gpu_available_spec.
  unfold list_physical_devices, gpu_available.
  destruct env as [[f|] t]; simpl.
  - destruct (decide (f "GPU" ≠ [])) as [Hne|He].
    + rewrite bool_decide_eq_true_2 by assumption.
      destruct (on_gpu quota); simpl; intros [= <-]; [|lia].
      destruct (f "GPU"); [congruence|simpl; lia].
    + rewrite bool_decide_eq_false_2 by assumption. simpl. intros [= <-]. lia.
  - destruct t.
    + rewrite bool_decide_eq_true_2 by reflexivity.
      destruct (on_gpu quota); simpl; [discriminate|intros [= <-]; lia].
    + rewrite bool_decide_eq_false_2 by discriminate. simpl. intros [= <-]. lia.
Qed.

(** X2: a runner that is given more than one replica runs each replica with
    a concurrency of exactly 1. *)
Theorem several_replicas_run_single_threaded (env : tf_env) (quota : resource_quota)
    (n : Z) :
  num_replica env quota = inr n -> n <> 1 ->
  num_concurrency_per_replica env quota = inr 1.
Proof.
  unfold num_replica, num_concurrency_per_replica.
  destruct (_is_gpu_available env) as [e|available]; [discriminate|].
  destruct (available && on_gpu quota); [reflexivity|].
  intros [= <-] Hn. contradiction.
Qed.

Lemma py_round_integer (x : Q) (n : Z) : (x == inject_Z n)%Q -> py_round x = n.
Proof.
  intros Hx. unfold py_round.
  assert (Qfloor x = n) as -> by (rewrite Hx; apply Qfloor_Z).
  destruct (Qcompare_spec (x - inject_Z n) (1 # 2)) as [He|Hl|Hg];
    [exfalso; lra | reflexivity | exfalso; lra].
Qed.

(** X3: without a GPU to run on, an integral CPU quota is the concurrency of
    a replica as it stands. *)
Theorem integral_cpu_quota_is_kept (env : tf_env) (quota : resource_quota) (n : Z) :
  ~ (gpu_available env /\ on_gpu quota = true) ->
  (cpu quota == inject_Z n)%Q ->
  num_concurrency_per_replica env quota = inr n.
Proof.
  intros Hno Hcpu. unfold num_concurrency_per_replica.
  rewrite _is_gpu_available_spec.
  destruct (decide (gpu_available env)) as [Hg|Hg].
  - rewrite bool_decide_eq_true_2 by assumption. simpl.
    destruct (on_gpu quota); [exfalso; apply Hno; split; [assumption|reflexivity]|].
    rewrite (py_round_integer _ n Hcpu). reflexivity.
  - rewrite bool_decide_eq_false_2 by assumption. simpl.
    rewrite (py_round_integer _ n Hcpu). reflexivity.
Qed.

(** X4: without a GPU to run on, a CPU quota of at most one half gives a
    replica a concurrency of 0, the tie at one half going to the even side. *)
Theorem small_cpu_quota_rounds_to_zero (env : tf_env) (quota : resource_quota) :
  ~ (gpu_available env /\ on_gpu quota = true) ->
  (0 <= cpu quota)%Q -> (cpu quota <= 1 # 2)%Q ->
  num_concurrency_per_replica env quota = inr 0.
Proof.
  intros Hno Hlo Hhi.
  assert (py_round (cpu quota) = 0) as Hround.
  { unfold py_round.
    assert (Qfloor (cpu quota) = 0) as ->.
    { pose proof (Qfloor_le (cpu quota)) as H1.
      pose proof (Qfloor_resp_le _ _ Hlo) as H2. change (Qfloor 0) with 0 in H2.
      assert (inject_Z (Qfloor (cpu quota)) < 1)%Q as H3 by lra.
      change 1%Q with (inject_Z 1) in H3. rewrite <- Zlt_Qlt in H3. lia. }
    destruct (Qcompare_spec (cpu quota - inject_Z 0) (1 # 2)) as [He|Hl|Hg];
      [reflexivity | reflexivity | exfalso].
    change (inject_Z 0) with 0%Q in Hg. lra. }
  unfold num_concurrency_per_replica. rewrite _is_gpu_available_spec.
  destruct (decide (gpu_available env)) as [Hg|Hg].
  - rewrite bool_decide_eq_true_2 by assumption. simpl.
    destruct (on_gpu quota); [exfalso; apply Hno; split; [assumption|reflexivity]|].
    rewrite Hround. reflexivity.
  - rewrite bool_decide_eq_false_2 by assumption. simpl. rewrite Hround. reflexivity.
Qed.

(** ** The callable wrapper, under any collaborators *)

Section WrapperRuns.
Context {V Spec Func W : Type}.
Variable h : handler (@callE V Spec Func) W.
Implicit Types (w : @tf_function_wrapper Spec Func) (d : gmap string Spec).
Implicit Types (args : list V) (kwargs : list (string * V)).

Lemma cast_args_no_invocation (pairs : list (V * Spec)) (w0 : W) :
  invocations (exec h (cast_args pairs) w0).1 = [].
Proof.
  revert w0. induction pairs as [|[a s] rest IH]; intros w0; [reflexivity|].
  simpl cast_args. unfold mbind, prog_bind. simpl.
  destruct (h V (CastTensorBySpec a s) w0) as [[e|v] w1]; [reflexivity|].
  simpl. rewrite exec_bind. specialize (IH w1).
  destruct (exec h (cast_args rest) w1) as [t [[e|vs] w2]]; simpl in *;
    [exact IH|rewrite app_nil_r; exact IH].
Qed.

Lemma cast_kwargs_no_invocation (specs : option (gmap string Spec)) kwargs (w0 : W) :
  invocations (exec h (cast_kwargs specs kwargs) w0).1 = [].
Proof.
  revert w0. induction kwargs as [|[k a] rest IH]; intros w0; [reflexivity|].
  simpl cast_kwargs. destruct specs as [d|]; [|reflexivity].
  destruct (d !! k) as [s|]; [|reflexivity].
  unfold mbind, prog_bind. simpl.
  destruct (h V (CastTensorBySpec a s) w0) as [[e|v] w1]; [reflexivity|].
  simpl. rewrite exec_bind. specialize (IH w1).
  destruct (exec h (cast_kwargs (Some d) rest) w1) as [t [[e|vs] w2]];
    simpl in *; [exact IH|rewrite app_nil_r; exact IH].
Qed.

Lemma check_kwargs_pure (specs : option (gmap string Spec)) kwargs :
  check_kwargs (Func := Func) specs kwargs = Ret tt
  \/ exists e, check_kwargs (Func := Func) specs kwargs = Raise e.
Proof.
  induction kwargs as [|[k a] rest IH]; simpl; [left; reflexivity|].
  destruct specs as [d|]; [|right; eauto].
  destruct (d !! k); [exact IH|right; eauto].
Qed.

Lemma invocations_app (t1 t2 : list (event (@callE V Spec Func))) :
  invocations (t1 ++ t2) = invocations t1 ++ invocations t2.
Proof. unfold invocations. apply omap_app. Qed.

(** X5: whatever the collaborators answer, a call on a wrapper reaches the
    original callable at most once, and only as its last step: either the
    run ends in an error without any invocation, or the invocation of the
    wrapped callable closes the run. *)
Theorem call_invokes_once_and_last w args kwargs (w0 : W) :
  exists pre,
    invocations pre = []
    /\ (((exec h (call w args kwargs) w0).1 = pre
         /\ exists e, (exec h (call w args kwargs) w0).2.1 = inl e)
        \/ exists a k,
             (exec h (call w args kwargs) w0).1
             = pre ++ [ev_of (Invoke (origin_func w) a k)]).
Proof.
  assert (forall a k, exists pre, invocations pre = [] /\
            ((exec h (trigger (Invoke (origin_func w) a k)) w0).1 = pre ++
               [ev_of (Invoke (origin_func w) a k)])) as Hdirect.
  { intros a k. exists []. rewrite exec_trigger. split; reflexivity. }
  assert (exists pre, invocations pre = []
            /\ (((exec h (validated_call w args kwargs) w0).1 = pre
                 /\ exists e, (exec h (validated_call w args kwargs) w0).2.1 = inl e)
                \/ exists a k,
                     (exec h (validated_call w args kwargs) w0).1
                     = pre ++ [ev_of (Invoke (origin_func w) a k)])) as Hvalidated.
  { unfold validated_call, mbind, prog_bind.
    destruct (check_kwargs_pure (kwarg_specs w) kwargs) as [->|[e0 ->]];
      [|exists []; split; [reflexivity|left; simpl; eauto]].
    simpl bind. destruct (arg_names w) as [names|];
      [|exists []; split; [reflexivity|left; simpl; eauto]].
    destruct (decide _) as [Hamb|Hamb];
      [|exists []; split; [reflexivity|left; simpl; eauto]].
    destruct (arg_specs w) as [specs|];
      [|exists []; split; [reflexivity|left; simpl; eauto]].
    rewrite exec_bind.
    pose proof (cast_args_no_invocation (zip args specs) w0) as Ha.
    destruct (exec h (cast_args (zip args specs)) w0) as [t1 [[e|targs] w1]];
      simpl in Ha; [exists t1; split; [assumption|left; simpl; eauto]|].
    rewrite exec_bind.
    pose proof (cast_kwargs_no_invocation (kwarg_specs w) kwargs w1) as Hk.
    destruct (exec h (cast_kwargs (kwarg_specs w) kwargs) w1) as [t2 [[e|tkw] w2]];
      simpl in Hk.
    - exists (t1 ++ t2). rewrite invocations_app, Ha, Hk.
      split; [reflexivity|left; simpl; eauto].
    - rewrite exec_trigger. exists (t1 ++ t2). rewrite invocations_app, Ha, Hk.
      split; [reflexivity|right]. exists targs, tkw. simpl.
      rewrite app_assoc. reflexivity. }
  unfold call. destruct (arg_specs w), (kwarg_specs w); try exact Hvalidated.
  destruct (Hdirect args kwargs) as (pre & Hpre & Ht).
  exists pre. split; [assumption|right; eauto].
Qed.

End WrapperRuns.

Section WrapperShapes.
Context {V Spec Func : Type}.
Implicit Types (w : @tf_function_wrapper Spec Func) (d : gmap string Spec).
Implicit Types (args : list V) (kwargs : list (string * V)).

Lemma invocations_of_casts (l : list (V * Spec)) :
  invocations (Func := Func) (map (fun p => ev_of (CastTensorBySpec p.1 p.2)) l) = [].
Proof. induction l as [|p l IH]; [reflexivity|exact IH]. Qed.

Lemma coercions_of_casts (l : list (V * Spec)) :
  coercions (Func := Func) (map (fun p => ev_of (CastTensorBySpec p.1 p.2)) l) = l.
Proof.
  induction l as [|[a s] l IH]; [reflexivity|].
  unfold coercions. simpl. f_equal. exact IH.
Qed.



Lemma coerced_kwargs_names cast d kwargs :
  (forall k, k ∈ kwargs.*1 -> is_Some (d !! k)) ->
  (coerced_kwargs cast d kwargs).*1 = kwargs.*1.
Proof.
  induction kwargs as [|[k v] rest IH]; intros Hk; [reflexivity|].
  destruct (Hk k) as [s Hs]; [rewrite fmap_cons; left|].
  unfold coerced_kwargs in *. simpl. rewrite Hs. simpl. f_equal.
  apply IH. intros j Hj. apply Hk. rewrite fmap_cons. right. exact Hj.
Qed.

(** X6: for a call the wrapper accepts (names known, no clash), with
    collaborators that answer: the positional arguments are coerced before
    the keyword arguments, each against the spec at its position; the
    original callable is invoked once, with as many positional values as
    there are both arguments and specs, and with the keyword names of the
    call, in the order of the call. *)
Theorem accepted_call_shape cast orig w names specs d args kwargs :
  arg_names w = Some names ->
  arg_specs w = Some specs ->
  kwarg_specs w = Some d ->
  (forall k, k ∈ kwargs.*1 -> is_Some (d !! k)) ->
  arg_keys names args ∩ kwarg_keys kwargs = ∅ ->
  let t := (exec (pure_handler cast orig) (call w args kwargs) tt).1 in
  coercions t = zip args specs ++ kwarg_coercions d kwargs
  /\ exists received kw,
       invocations t = [(origin_func w, received, kw)]
       /\ length received = min (length args) (length specs)
       /\ kw.*1 = kwargs.*1.
Proof.
  intros Hn Hs Hd Hk Hamb t. subst t.
  rewrite (exec_validated_call cast orig w names specs d) by assumption. simpl.
  split.
  - unfold coercions. rewrite omap_app. fold (coercions (Func := Func)
      (map (fun p => ev_of (CastTensorBySpec p.1 p.2))
           (zip args specs ++ kwarg_coercions d kwargs))).
    rewrite coercions_of_casts. simpl. apply app_nil_r.
  - exists (zip_with cast args specs), (coerced_kwargs cast d kwargs).
    split; [|split].
    + rewrite invocations_app, invocations_of_casts. reflexivity.
    + apply length_zip_with.
    + apply coerced_kwargs_names. assumption.
Qed.

Lemma spec_zip_lookup_at (names : list string) (specs : list Spec) i n s :
  NoDup names -> names !! i = Some n -> specs !! i = Some s ->
  spec_zip_lookup names specs n = Some s.
Proof.
  revert specs i. induction names as [|n0 names IH]; intros specs i Hnd Hn Hs.
  - destruct i; discriminate.
  - apply NoDup_cons in Hnd as [Hfresh Hnd].
    destruct specs as [|s0 specs]; [destruct i; discriminate|].
    destruct i as [|i]; simpl in *.
    + injection Hn as ->. injection Hs as ->.
      destruct (spec_zip_lookup names specs n) as [s'|] eqn:E.
      * exfalso. apply Hfresh.
        assert (n ∈ take (length specs) names) as Hin
          by (apply spec_zip_lookup_is_Some; rewrite E; eauto).
        apply list_elem_of_lookup in Hin as [j Hj].
        apply lookup_take_Some in Hj as [Hj _].
        apply list_elem_of_lookup. eauto.
      * rewrite decide_True by reflexivity. reflexivity.
    + rewrite (IH specs i Hnd Hn Hs). reflexivity.
Qed.

(** X7: with distinct parameter names, the merged lookup gives the name at
    position [i] the positional spec at position [i], unless an explicit
    keyword spec is recorded for that name. *)
Theorem merged_lookup_by_position (origin : Func) (names : list string)
    (specs : list Spec) (kws : option (gmap string Spec)) i n s m :
  NoDup names ->
  names !! i = Some n ->
  specs !! i = Some s ->
  default ∅ kws !! n = None ->
  kwarg_specs (init origin (Some names) (Some specs) kws) = Some m ->
  m !! n = Some s.
Proof.
  intros Hnd Hn Hs Hkw Hm. rewrite init_kwarg_specs in Hm. injection Hm as <-.
  rewrite dict_update_lookup, Hkw. simpl. rewrite dict_of_pairs_lookup.
  apply (spec_zip_lookup_at names specs i); assumption.
Qed.

End WrapperShapes.

(** ** Bulk application, attribute by attribute *)

Section HookShapes.
Context {V Spec Func : Type}.
Variable get_restored_functions : @object V Spec Func -> gmap string Func.
Variable get_arg_names : Func -> option (list string).
Variable get_input_signatures :
  Func -> list (option (list Spec) * option (gmap string Spec)).

Abbreviation hooked :=
  (hook_loaded_model get_restored_functions get_arg_names get_input_signatures).

Lemma hook_leaves_the_rest_aux (m : @object V Spec Func) (k : string) :
  (get_restored_functions m !! k = None
   \/ exists func, get_restored_functions m !! k = Some func
                   /\ get_input_signatures func = []) ->
  hooked m !! k = m !! k.
Proof.
  intros [Hnone|(func & Hk & Hs)]; unfold hook_loaded_model.
  - apply hook_fold_other. intros Hin.
    apply list_elem_of_fmap in Hin as ([k' func] & -> & Hin).
    apply elem_of_map_to_list in Hin. simpl in Hnone. congruence.
  - rewrite (hook_fold_at get_arg_names get_input_signatures _ m k func).
    + simpl. rewrite Hs. reflexivity.
    + apply NoDup_fst_map_to_list.
    + apply elem_of_map_to_list. assumption.
Qed.

(** X8: the bulk hook leaves alone every attribute that is not a restored
    function and every restored function that records no input signature. *)
Theorem hook_leaves_the_rest (m : @object V Spec Func) (k : string) :
  (get_restored_functions m !! k = None
   \/ exists func, get_restored_functions m !! k = Some func
                   /\ get_input_signatures func = []) ->
  hooked m !! k = m !! k.
Proof. apply hook_leaves_the_rest_aux. Qed.

(** X9: the bulk hook removes no attribute of the loaded model, and the
    attribute it sets under a name is always a wrapper around the restored
    function of that name. *)
Theorem hook_only_wraps (m : @object V Spec Func) (k : string) :
  (is_Some (m !! k) -> is_Some (hooked m !! k))
  /\ (hooked m !! k <> m !! k ->
      exists func w, get_restored_functions m !! k = Some func
                     /\ hooked m !! k = Some (AWrapper w)
                     /\ origin_func w = func).
Proof.
  destruct (get_restored_functions m !! k) as [func|] eqn:Hk.
  - destruct (get_input_signatures func) as [|[a kw] rest] eqn:Hs.
    + rewrite (hook_leaves_the_rest_aux m k).
      * split; [tauto|congruence].
      * right. eauto.
    + assert (hooked m !! k
              = Some (AWrapper (init func (get_arg_names func) a kw))) as Hw.
      { unfold hook_loaded_model. rewrite (hook_fold_at get_arg_names get_input_signatures _ m k func).
        - simpl. rewrite Hs. unfold object in *. apply lookup_insert_eq.
        - apply NoDup_fst_map_to_list.
        - apply elem_of_map_to_list. assumption. }
      split; [intros _; rewrite Hw; eauto|].
      intros _. exists func, (init func (get_arg_names func) a kw). auto.
  - rewrite (hook_leaves_the_rest_aux m k); [split; [tauto|congruence]|].
    left. exact Hk.
Qed.

End HookShapes.

(** ** Calls on a hooked function *)

Section HookCalls.
Context {V Spec Func : Type}.
Variable get_restored_functions : @object V Spec Func -> gmap string Func.
Variable get_arg_names : Func -> option (list string).
Variable get_input_signatures :
  Func -> list (option (list Spec) * option (gmap string Spec)).



End HookCalls.

(** ** The loader, branch by branch *)

Section LoaderRuns.
Context {V Spec Func Options W : Type}.
Variable TF2 : bool.
Variable tf_version : string.
Variable get_restored_functions : @object V Spec Func -> gmap string Func.
Variable get_arg_names : Func -> option (list string).
Variable get_input_signatures :
  Func -> list (option (list Spec) * option (gmap string Spec)).
Variable h : handler (@loadE V Spec Func Options) W.

Abbreviation load_ :=
  (load (Options := Options) TF2 tf_version get_restored_functions get_arg_names
        get_input_signatures).
Abbreviation hook_ :=
  (hook_loaded_model get_restored_functions get_arg_names get_input_signatures).

(** X10: on TensorFlow 1, [_load_tf_saved_model] returns the object as it was
    loaded, and logs the warning about calling it exactly when the object is
    an [AutoTrackable] without a [__call__]. *)
Theorem legacy_saved_model_warning (path : string) (o : @object V Spec Func)
    (tracked : bool) (w0 w1 w2 w3 : W) :
  h _ (SavedModelLoad path) w0 = (inr o, w1) ->
  h _ (IsAutoTrackable o) w1 = (inr tracked, w2) ->
  h _ (LogWarning AUTOTRACKABLE_CALLABLE_WARNING) w2 = (inr tt, w3) ->
  exec h (_load_tf_saved_model false path) w0
  = if tracked && negb (hasattr o "__call__")
    then ([ev_of (SavedModelLoad path); ev_of (IsAutoTrackable o);
           ev_of (LogWarning AUTOTRACKABLE_CALLABLE_WARNING)], (inr o, w3))
    else ([ev_of (SavedModelLoad path); ev_of (IsAutoTrackable o)], (inr o, w2)).
Proof.
  intros Hload Htracked Hwarn. unfold _load_tf_saved_model, mbind, prog_bind.
  simpl. rewrite Hload. simpl. rewrite Htracked. simpl.
  destruct (tracked && negb (hasattr o "__call__")); simpl.
  - rewrite Hwarn. reflexivity.
  - reflexivity.
Qed.

(** X11: a hub entry loaded with [load_as_wrapper=True] is handed to
    [hub.KerasLayer] on TensorFlow 2 and to [hub.Module] otherwise, with the
    recorded local path; the answer of that class is the result, and neither
    the tag set nor the options are looked at. *)
Theorem hub_load_as_wrapper (tag path : string) (tfhub_tags : option (list string))
    (tfhub_options : option Options) (info : model_info)
    (answer : result (@object V Spec Func)) (w0 w1 w2 : W) :
  h _ (StoreGet tag) w0 = (inr info, w1) ->
  is_Some (info_context info !! "tensorflow_hub") ->
  info_options info !! "local_path" = Some path ->
  h _ (if TF2 then HubKerasLayer path else HubModule path) w1 = (answer, w2) ->
  exec h (load_ tag tfhub_tags tfhub_options (Some true)) w0
  = ([ev_of (StoreGet tag);
      ev_of (if TF2 then HubKerasLayer path else HubModule path)],
     (answer, w2)).
Proof.
  intros Hget Hhub Hpath Hwrap. unfold load, mbind, prog_bind.
  rewrite exec_bind, exec_trigger, Hget.
  rewrite decide_True by assumption. simpl bind.
  unfold subscript. rewrite Hpath. simpl bind.
  destruct TF2; rewrite exec_trigger, Hwrap; reflexivity.
Qed.

(** X12: loading a hub entry as a raw module with load options, on a
    TensorFlow whose [saved_model] has no [LoadOptions], fails with
    [NotImplementedError] naming the version; nothing is loaded. *)
Theorem hub_load_options_unsupported (tag path proto_path : string)
    (tfhub_tags : option (list string)) (options : Options) (info : model_info)
    (is_v1 : bool) (w0 w1 w2 w3 w4 : W) :
  h _ (StoreGet tag) w0 = (inr info, w1) ->
  is_Some (info_context info !! "tensorflow_hub") ->
  info_options info !! "local_path" = Some path ->
  h _ (GetModuleProtoPath path) w1 = (inr proto_path, w2) ->
  h _ (GfileExists proto_path) w2 = (inr is_v1, w3) ->
  h _ HasLoadOptions w3 = (inr false, w4) ->
  exec h (load_ tag tfhub_tags (Some options) (Some false)) w0
  = ([ev_of (StoreGet tag); ev_of (GetModuleProtoPath path);
      ev_of (GfileExists proto_path); ev_of HasLoadOptions],
     (inl (NotImplementedError
             (String.append
                "options are not supported for TF < 2.3.x, Current version: "
                tf_version)), w4)).
Proof.
  intros Hget Hhub Hpath Hproto Hexists Hopts. unfold load, mbind, prog_bind.
  rewrite exec_bind, exec_trigger, Hget.
  rewrite decide_True by assumption. simpl bind.
  unfold subscript. rewrite Hpath. simpl.
  rewrite Hproto. simpl. rewrite Hexists. simpl. rewrite Hopts. reflexivity.
Qed.

(** X13: loading a hub entry as a raw module without load options: a tag
    set given by the caller is passed on as it is; when none is given, the
    empty tag set is passed for a module with a module descriptor file and
    none otherwise.  The loaded object is returned with
    [_is_hub_module_v1] recording whether the descriptor file exists. *)
Theorem hub_load_raw_module (tag path proto_path : string)
    (tfhub_tags : option (list string)) (info : model_info) (is_v1 : bool)
    (o : @object V Spec Func) (w0 w1 w2 w3 w4 : W) :
  let tags := match tfhub_tags with
              | None => if is_v1 then Some [] else None
              | Some given => Some given
              end in
  h _ (StoreGet tag) w0 = (inr info, w1) ->
  is_Some (info_context info !! "tensorflow_hub") ->
  info_options info !! "local_path" = Some path ->
  h _ (GetModuleProtoPath path) w1 = (inr proto_path, w2) ->
  h _ (GfileExists proto_path) w2 = (inr is_v1, w3) ->
  h _ (LoadV2 path tags None) w3 = (inr o, w4) ->
  exec h (load_ tag tfhub_tags None (Some false)) w0
  = ([ev_of (StoreGet tag); ev_of (GetModuleProtoPath path);
      ev_of (GfileExists proto_path); ev_of (LoadV2 path tags None)],
     (inr (<["_is_hub_module_v1" := ABool is_v1]> o), w4)).
Proof.
  intros tags Hget Hhub Hpath Hproto Hexists Hload. unfold load, mbind, prog_bind.
  rewrite exec_bind, exec_trigger, Hget.
  rewrite decide_True by assumption. simpl bind.
  unfold subscript. rewrite Hpath. simpl.
  rewrite Hproto. simpl. rewrite Hexists. simpl.
  fold tags. rewrite Hload. reflexivity.
Qed.

(** X14: a hub entry whose options record no [local_path] cannot be loaded:
    with the choice made either way, [load] ends in [KeyError] right after
    the store lookup. *)
Theorem hub_load_missing_local_path (tag : string)
    (tfhub_tags : option (list string)) (tfhub_options : option Options)
    (choice : bool) (info : model_info) (w0 w1 : W) :
  h _ (StoreGet tag) w0 = (inr info, w1) ->
  is_Some (info_context info !! "tensorflow_hub") ->
  info_options info !! "local_path" = None ->
  exec h (load_ tag tfhub_tags tfhub_options (Some choice)) w0
  = ([ev_of (StoreGet tag)], (inl (KeyError "local_path"), w1)).
Proof.
  intros Hget Hhub Hpath. unfold load, mbind, prog_bind.
  rewrite exec_bind, exec_trigger, Hget.
  rewrite decide_True by assumption. simpl bind.
  unfold subscript. rewrite Hpath. reflexivity.
Qed.

(** X15: loading a plain saved model: the model is loaded from the entry's
    path, every restored function is hooked, the two notices are logged, the
    Keras notice is logged exactly when the model has a [keras_api], and the
    hooked model is returned; the hub arguments of [load] play no part. *)
Theorem plain_load_returns_hooked_model (tag summary : string)
    (tfhub_tags : option (list string)) (tfhub_options : option Options)
    (load_as_wrapper : option bool) (info : model_info)
    (m : @object V Spec Func) (t : list (event loadE)) (w0 w1 w2 w3 w4 w5 w6 : W) :
  h _ (StoreGet tag) w0 = (inr info, w1) ->
  info_context info !! "tensorflow_hub" = None ->
  exec h (_load_tf_saved_model TF2 (info_path info)) w1 = (t, (inr m, w2)) ->
  h _ (LogWarning TF_FUNCTION_WARNING) w2 = (inr tt, w3) ->
  h _ (PrettyFormatRestoredModel (hook_ m)) w3 = (inr summary, w4) ->
  h _ (LogInfo summary) w4 = (inr tt, w5) ->
  h _ (LogWarning (KERAS_MODEL_WARNING MODULE_NAME)) w5 = (inr tt, w6) ->
  exec h (load_ tag tfhub_tags tfhub_options load_as_wrapper) w0
  = (ev_of (StoreGet tag) :: t
     ++ [ev_of (LogWarning TF_FUNCTION_WARNING);
         ev_of (PrettyFormatRestoredModel (hook_ m));
         ev_of (LogInfo summary)]
     ++ (if hasattr (hook_ m) "keras_api"
         then [ev_of (LogWarning (KERAS_MODEL_WARNING MODULE_NAME))] else []),
     (inr (hook_ m), if hasattr (hook_ m) "keras_api" then w6 else w5)).
Proof.
  intros Hget Hplain Hload Hw Hp Hi Hk. unfold load, mbind, prog_bind.
  rewrite exec_bind, exec_trigger, Hget.
  rewrite decide_False by (rewrite Hplain; intros [? ?]; discriminate).
  rewrite exec_bind, Hload.
  simpl. rewrite Hw. simpl. rewrite Hp. simpl. rewrite Hi. simpl.
  destruct (hasattr (hook_ m) "keras_api"); simpl.
  - rewrite Hk. reflexivity.
  - reflexivity.
Qed.

End LoaderRuns.

(** ** The persister, branch by branch *)

Section PersisterRuns.
Context {Model Signatures Options Metadata W : Type}.
Variable TF2 : bool.
Variable tf_version : string.
Variable str_options : Options -> string.
Variable str_bytes : string -> string.
Variable h : handler (@saveE Model Signatures Options Metadata) W.

Abbreviation save_ := (save (Model := Model) TF2 tf_version str_options str_bytes).
Abbreviation registration name metadata :=
  (StoreRegister name MODULE_NAME None {[ "tensorflow" := tf_version ]} metadata).


(** X17: saving a model object calls the framework's save once, on the path
    of the new entry and with the signatures of the call.  On TensorFlow 2
    the options are passed on; otherwise they are dropped, and a warning is
    logged first exactly when options were given. *)
Theorem save_model_object (name : string) (m : Model)
    (signatures : option Signatures) (options : option Options)
    (metadata : option Metadata) (ctx : store_ctx) (warning : string)
    (w0 w1 w2 w3 w4 : W) :
  let passed := if TF2 then options else None in
  let warned := negb TF2 && bool_decide (is_Some options) in
  h _ (registration name metadata) w0 = (inr ctx, w1) ->
  (forall o, options = Some o ->
     warning = String.append "Parameter 'options: "
                 (String.append (str_options o)
                    (String.append "' is ignored when using tensorflow " tf_version))
     /\ h _ (SaveLogWarning warning) w1 = (inr tt, w2)) ->
  h _ (SavedModelSave m (ctx_path ctx) signatures passed) (if warned then w2 else w1)
    = (inr tt, w3) ->
  h _ (StoreRegisterExit ctx None) w3 = (inr tt, w4) ->
  exec h (save_ name (ModelObject m) signatures options metadata) w0
  = (ev_of (registration name metadata)
     :: (if warned then [ev_of (SaveLogWarning warning)] else [])
     ++ [ev_of (SavedModelSave m (ctx_path ctx) signatures passed);
         ev_of (StoreRegisterExit ctx None)],
     (inr (ctx_tag ctx), w4)).
Proof.
  intros passed warned Hreg Hwarn Hsave Hexit. subst passed warned.
  unfold save, with_register, mbind, prog_bind.
  rewrite exec_bind, exec_trigger, Hreg.
  destruct TF2; simpl in *.
  - rewrite Hsave. simpl. rewrite Hexit. reflexivity.
  - destruct options as [o|]; simpl in *.
    + destruct (Hwarn o eq_refl) as [-> Hlog]. rewrite Hlog. simpl.
      rewrite Hsave. simpl. rewrite Hexit. reflexivity.
    + rewrite Hsave. simpl. rewrite Hexit. reflexivity.
Qed.

End PersisterRuns.

(** ** Names of imported modules *)

Section CleanNameFacts.
Variable is_word : Ascii.ascii -> bool.
Variable is_digit : Ascii.ascii -> bool.

Abbreviation sub := (sub_from is_word is_digit).

Lemma sub_from_length (b : bool) (s : string) :
  String.length (sub b s) = String.length s.
Proof. revert b. induction s as [|c s IH]; intros b; simpl; [|rewrite IH]; reflexivity. Qed.

Lemma sub_from_get (b : bool) (s : string) (i : nat) (c : Ascii.ascii) :
  String.get i (sub b s) = Some c ->
  c = "_"%char \/ (String.get i s = Some c /\ is_word c = true).
Proof.
  revert b i. induction s as [|c0 s IH]; intros b i; simpl; [discriminate|].
  destruct i as [|i]; [|apply IH].
  unfold pattern_matches. destruct (is_word c0) eqn:Hw; simpl.
  - destruct (b && is_digit c0 && bool_decide (c0 = "-"%char)).
    + intros [= <-]. left. reflexivity.
    + intros [= <-]. right. split; [reflexivity|assumption].
  - intros [= <-]. left. reflexivity.
Qed.

(** X18: [_clean_name] keeps the length of a name, and each character of
    the result is an underscore or the word character that the name has at
    that position. *)
Theorem clean_name_characters (name : string) :
  String.length (_clean_name is_word is_digit name) = String.length name
  /\ forall i c, String.get i (_clean_name is_word is_digit name) = Some c ->
       c = "_"%char \/ (String.get i name = Some c /\ is_word c = true).
Proof.
  split; [apply sub_from_length|]. intros i c. apply sub_from_get.
Qed.

Lemma sub_from_all_word (b : bool) (s : string) :
  is_word "_"%char = true -> all_chars is_word (sub b s) = true.
Proof.
  intros Hu. revert b. induction s as [|c s IH]; intros b; simpl; [reflexivity|].
  rewrite IH, andb_true_r. unfold pattern_matches.
  destruct (is_word c) eqn:Hw; simpl; [|assumption].
  destruct (b && is_digit c && bool_decide (c = "-"%char)); assumption.
Qed.

(** X19: the underscore being a word character, a cleaned name consists of
    word characters only. *)
Theorem clean_name_is_word_only (name : string) :
  is_word "_"%char = true -> all_chars is_word (_clean_name is_word is_digit name) = true.
Proof. apply sub_from_all_word. Qed.

Lemma sub_from_idempotent (b : bool) (s : string) :
  sub b (sub b s) = sub b s.
Proof.
  revert b. induction s as [|c s IH]; intros b; simpl; [reflexivity|].
  rewrite IH. f_equal.
  destruct (pattern_matches is_word is_digit b c) eqn:Hm.
  - destruct (pattern_matches is_word is_digit b "_"%char); reflexivity.
  - rewrite Hm. reflexivity.
Qed.

(** X20: cleaning a cleaned name changes nothing. *)
Theorem clean_name_idempotent (name : string) :
  _clean_name is_word is_digit (_clean_name is_word is_digit name) = _clean_name is_word is_digit name.
Proof. apply sub_from_idempotent. Qed.

Lemma sub_from_word_only (b : bool) (s : string) :
  is_digit "-"%char = false -> all_chars is_word s = true -> sub b s = s.
Proof.
  intros Hd. revert b. induction s as [|c s IH]; intros b; simpl; [reflexivity|].
  intros [Hc Hs]%andb_true_iff. rewrite (IH false Hs). f_equal.
  unfold pattern_matches. rewrite Hc. simpl.
  destruct (bool_decide_reflect (c = "-"%char)) as [->|Hne].
  - rewrite Hd, andb_false_r. reflexivity.
  - rewrite andb_false_r. reflexivity.
Qed.

(** X21: the hyphen not being a digit, a name of word characters only is
    left as it is. *)
Theorem clean_name_keeps_word_names (name : string) :
  is_digit "-"%char = false -> all_chars is_word name = true -> _clean_name is_word is_digit name = name.
Proof. apply sub_from_word_only. Qed.

Lemma split_slash_max_zero (s : string) : split_slash_max s 0 = [s].
Proof. destruct s; reflexivity. Qed.

Lemma split_slash_max_segment (a b : string) (n : nat) :
  all_chars not_slash a = true ->
  split_slash_max (a +:+ String "/" b) (S n) = a :: split_slash_max b n.
Proof.
  induction a as [|c a IH]; simpl.
  - intros _. reflexivity.
  - intros [Hc Ha]%andb_true_iff. unfold not_slash in Hc.
    apply negb_true_iff, bool_decide_eq_false in Hc.
    rewrite bool_decide_eq_false_2 by assumption.
    rewrite (IH Ha). reflexivity.
Qed.

(** X22: for an identifier [http://host/rest] or [https://host/rest], the
    name of the imported module is made from [rest] alone: the scheme and
    the host leave no trace in it. *)
Theorem url_name_is_made_from_the_path (scheme host rest : string) :
  scheme = "http:" \/ scheme = "https:" ->
  all_chars not_slash host = true ->
  name_of_handle is_word is_digit (scheme +:+ "//" +:+ host +:+ String "/" rest)
  = _clean_name is_word is_digit rest.
Proof.
  intros Hscheme Hhost. unfold name_of_handle.
  assert (is_url (scheme +:+ "//" +:+ host +:+ String "/" rest) = true) as ->
    by (destruct Hscheme as [->| ->]; reflexivity).
  assert (all_chars not_slash scheme = true) as Hs
    by (destruct Hscheme as [->| ->]; reflexivity).
  change (scheme +:+ "//" +:+ host +:+ String "/" rest)
    with (scheme +:+ String "/" (EmptyString +:+ String "/" (host +:+ String "/" rest))).
  rewrite (split_slash_max_segment scheme _ 2 Hs).
  rewrite (split_slash_max_segment EmptyString _ 1 eq_refl).
  rewrite (split_slash_max_segment host _ 0 Hhost).
  rewrite split_slash_max_zero. reflexivity.
Qed.

End CleanNameFacts.

(** ** Importing from TensorFlow Hub *)

Section ImporterRuns.
Context {HubObj Options Metadata Graph Sess Op W : Type}.
Variable is_word : Ascii.ascii -> bool.
Variable is_digit : Ascii.ascii -> bool.
Variable tf_version hub_v : string.
Variable class_name : HubObj -> string.
Variable has_export : HubObj -> bool.
Variable h : handler (@importE HubObj Options Metadata Graph Sess Op) W.

Abbreviation import_ :=
  (import_from_tfhub (Options := Options) (Graph := Graph) (Sess := Sess) (Op := Op)
     is_word is_digit tf_version (Some hub_v) class_name has_export).
Abbreviation hub_registration name metadata :=
  (HubRegister name MODULE_NAME None
     {[ "tensorflow" := tf_version; "tensorflow_hub" := hub_v ]} metadata).

(** X23: importing from an identifier string registers the entry under the
    given name, or else under the name made from the identifier, with both
    library versions as context; inside the scope it points
    [TFHUB_CACHE_DIR] at the entry's path before it resolves the
    identifier, records the identifier and the resolved path as the entry's
    options, and returns the entry's tag. *)
Theorem import_handle_run (s fpath : string) (name : option string)
    (metadata : option Metadata) (ctx : store_ctx) (w0 w1 w2 w3 w4 w5 : W) :
  let registered := default (name_of_handle is_word is_digit s) name in
  h _ (hub_registration registered metadata) w0 = (inr ctx, w1) ->
  h _ (SetEnviron "TFHUB_CACHE_DIR" (ctx_path ctx)) w1 = (inr tt, w2) ->
  h _ (Resolve s) w2 = (inr fpath, w3) ->
  h _ (SetCtxOptions ctx {[ "model" := s; "local_path" := fpath ]}) w3 = (inr tt, w4) ->
  h _ (HubRegisterExit ctx None) w4 = (inr tt, w5) ->
  exec h (import_ (Handle s) name metadata) w0
  = ([ev_of (hub_registration registered metadata);
      ev_of (SetEnviron "TFHUB_CACHE_DIR" (ctx_path ctx));
      ev_of (Resolve s);
      ev_of (SetCtxOptions ctx {[ "model" := s; "local_path" := fpath ]});
      ev_of (HubRegisterExit ctx None)],
     (inr (ctx_tag ctx), w5)).
Proof.
  intros registered Hreg Henv Hres Hopt Hexit. subst registered.
  unfold import_from_tfhub, scoped, mbind, prog_bind.
  destruct name as [n|]; simpl in *.
  - rewrite Hreg. simpl. rewrite Henv. simpl. rewrite Hres. simpl.
    rewrite Hopt. simpl. rewrite Hexit. reflexivity.
  - rewrite Hreg. simpl. rewrite Henv. simpl. rewrite Hres. simpl.
    rewrite Hopt. simpl. rewrite Hexit. reflexivity.
Qed.

(** X24: when the identifier cannot be resolved, the import fails with the
    resolver's error: the scope is left with that error, no options are
    recorded for the entry, and [TFHUB_CACHE_DIR] stays as it was set. *)
Theorem import_handle_unresolved (s : string) (name : option string)
    (metadata : option Metadata) (ctx : store_ctx) (e : exn) (w0 w1 w2 w3 w4 : W) :
  let registered := default (name_of_handle is_word is_digit s) name in
  h _ (hub_registration registered metadata) w0 = (inr ctx, w1) ->
  h _ (SetEnviron "TFHUB_CACHE_DIR" (ctx_path ctx)) w1 = (inr tt, w2) ->
  h _ (Resolve s) w2 = (inl e, w3) ->
  h _ (HubRegisterExit ctx (Some e)) w3 = (inr tt, w4) ->
  exec h (import_ (Handle s) name metadata) w0
  = ([ev_of (hub_registration registered metadata);
      ev_of (SetEnviron "TFHUB_CACHE_DIR" (ctx_path ctx));
      ev_of (Resolve s);
      ev_of (HubRegisterExit ctx (Some e))],
     (inl e, w4)).
Proof.
  intros registered Hreg Henv Hres Hexit. subst registered.
  unfold import_from_tfhub, scoped, mbind, prog_bind.
  destruct name as [n|]; simpl in *.
  - rewrite Hreg. simpl. rewrite Henv. simpl. rewrite Hres. simpl.
    rewrite Hexit. reflexivity.
  - rewrite Hreg. simpl. rewrite Henv. simpl. rewrite Hres. simpl.
    rewrite Hexit. reflexivity.
Qed.

End ImporterRuns.

(** ** The runner *)

Lemma exec_embed {E F R W} (inj : forall X, E X -> F X) (h : handler F W)
    (p : prog E R) (w : W) :
  exec h (embed inj p) w
  = let '(t, out) := exec (fun X ev => h X (inj X ev)) p w in
    (map (fun e : event E => ev_of (inj _ (projT2 e))) t, out).
Proof.
  revert w. induction p as [r|e|X ev k IH]; intros w; simpl; try reflexivity.
  destruct (h X (inj X ev) w) as [r w']. rewrite IH.
  destruct (exec (fun X ev => h X (inj X ev)) (k r) w') as [t out]. reflexivity.
Qed.

Lemma exec_trigger_bind {E X R W} (h : handler E W) (ev : E X) (f : X -> prog E R)
    (x : X) (w w' : W) :
  h X ev w = (inr x, w') ->
  exec h (bind (trigger ev) f) w
  = let '(t, out) := exec h (f x) w' in (ev_of ev :: t, out).
Proof. intros Hev. simpl. rewrite Hev. reflexivity. Qed.

Lemma num_concurrency_per_replica_returns (env : tf_env) (quota : resource_quota) :
  exists n, num_concurrency_per_replica env quota = inr n.
Proof.
  unfold num_concurrency_per_replica. rewrite _is_gpu_available_spec.
  destruct (_ && _); eauto.
Qed.

Section RunnerRuns.
Context {V Spec Func Options Raw BatchOptions Device Proto Session Op W : Type}.
Variable TF2 : bool.
Variable tf_version : string.
Variable env : tf_env.
Variable get_restored_functions : @object V Spec Func -> gmap string Func.
Variable get_arg_names : Func -> option (list string).
Variable get_input_signatures :
  Func -> list (option (list Spec) * option (gmap string Spec)).
Variable h :
  handler (@runE V Spec Func Options Raw Device Proto Session Op) W.

Abbreviation runner_init_ :=
  (runner_init (Options := Options) (Raw := Raw) (BatchOptions := BatchOptions)
     (Proto := Proto) (Session := Session) (Op := Op) (V := V) (Spec := Spec)
     (Func := Func) TF2 env).
Abbreviation ready :=
  (ready_runner (V := V) (Spec := Spec) (Func := Func)
     (BatchOptions := BatchOptions) (Device := Device) (Session := Session)).
Abbreviation setup_ :=
  (_setup (BatchOptions := BatchOptions) (Raw := Raw) (Op := Op) TF2 tf_version
     get_restored_functions get_arg_names get_input_signatures).

(** X25: a runner for a device identifier that no local device name
    contains is not constructed.  When the identifier has no "GPU" in it, or
    TensorFlow is not version 2, [__init__] ends in the assertion's error
    right after listing the local devices.  Otherwise the visible devices
    are restricted first: if that call raises, its error ends [__init__]
    and the devices are never listed; if it returns, the assertion's error
    follows.  In every case the device context is made first, and the store
    is not consulted and nothing is loaded. *)
Theorem runner_rejects_unknown_device (tag predict_fn_name device_id : string)
    (quota : resource_quota) (batch_options : option BatchOptions)
    (device : Device) (restriction : result unit) (names : list string)
    (w0 w1 w2 w3 : W) :
  let restricted := TF2 && contains "GPU" device_id in
  h _ (TfDevice device_id) w0 = (inr device, w1) ->
  (restricted = true ->
   h _ (SetVisibleDevices device_id "GPU") w1 = (restriction, w2)) ->
  h _ ListLocalDevices (if restricted then w2 else w1) = (inr names, w3) ->
  existsb (contains device_id) names = false ->
  exec h (runner_init_ tag predict_fn_name device_id quota batch_options) w0
  = if restricted then
      match restriction with
      | inl e =>
          ([ev_of (TfDevice device_id); ev_of (SetVisibleDevices device_id "GPU")],
           (inl e, w2))
      | inr _ =>
          ([ev_of (TfDevice device_id); ev_of (SetVisibleDevices device_id "GPU");
            ev_of ListLocalDevices],
           (inl (AssertionError ""), w3))
      end
    else
      ([ev_of (TfDevice device_id); ev_of ListLocalDevices],
       (inl (AssertionError ""), w3)).
Proof.
  intros restricted Hdev Hvis Hlist Hnone. subst restricted.
  unfold runner_init, mbind, prog_bind.
  destruct (num_concurrency_per_replica_returns env quota) as [n ->].
  simpl. rewrite Hdev. simpl.
  destruct (TF2 && contains "GPU" device_id); simpl.
  - rewrite (Hvis eq_refl). destruct restriction as [e|[]]; simpl; [reflexivity|].
    rewrite Hlist. simpl. rewrite Hnone. reflexivity.
  - rewrite Hlist. simpl. rewrite Hnone. reflexivity.
Qed.

(** X26: whatever the collaborators answer, a runner that is constructed
    has both thread counts of its session configuration equal to the
    concurrency of a replica under its quota, soft placement allowed and
    placement logging off; it records the tag, the quota and the name of
    the predict function as given. *)
Theorem runner_config_follows_quota (tag predict_fn_name device_id : string)
    (quota : resource_quota) (batch_options : option BatchOptions)
    (t : list (event runE)) (r : runner) (w0 w1 : W) :
  exec h (runner_init_ tag predict_fn_name device_id quota batch_options) w0
    = (t, (inr r, w1)) ->
  num_concurrency_per_replica env quota
    = inr (intra_op_parallelism_threads (r_config_proto r))
  /\ inter_op_parallelism_threads (r_config_proto r)
     = intra_op_parallelism_threads (r_config_proto r)
  /\ allow_soft_placement (r_config_proto r) = true
  /\ log_device_placement (r_config_proto r) = false
  /\ r_name r = tag
  /\ r_resource_quota r = quota
  /\ r_predict_fn_name r = predict_fn_name.
Proof.
  unfold runner_init, mbind, prog_bind.
  destruct (num_concurrency_per_replica_returns env quota) as [n Hn]. rewrite Hn.
  simpl. destruct (h Device (TfDevice device_id) w0) as [[e|device] wa]; simpl;
    [discriminate|].
  destruct (TF2 && contains "GPU" device_id); simpl.
  - destruct (h unit (SetVisibleDevices device_id "GPU") wa) as [[e|[]] wb]; simpl;
      [discriminate|].
    destruct (h (list string) ListLocalDevices wb) as [[e|names] wc]; simpl;
      [discriminate|].
    destruct (existsb (contains device_id) names); simpl; [|discriminate].
    intros [= <- <- <-]. simpl. auto 10.
  - destruct (h (list string) ListLocalDevices wa) as [[e|names] wc]; simpl;
      [discriminate|].
    destruct (existsb (contains device_id) names); simpl; [|discriminate].
    intros [= <- <- <-]. simpl. auto 10.
Qed.

(** X27: a runner bound to an entry that the store marks as a
    [tensorflow_hub] module cannot be set up: [_setup] loads the model
    without saying how a hub module is to be loaded, and ends in the
    assertion's error of [load] once the session is made. *)
Theorem setup_fails_on_hub_entry (self : runner) (proto : Proto) (session : Session)
    (info : model_info) (w0 w1 w2 w3 : W) :
  h _ (ConfigProto (r_config_proto self)) w0 = (inr proto, w1) ->
  h _ (SessionNew proto) w1 = (inr session, w2) ->
  h _ (OfLoad (StoreGet (r_name self))) w2 = (inr info, w3) ->
  is_Some (info_context info !! "tensorflow_hub") ->
  exec h (setup_ self) w0
  = ([ev_of (ConfigProto (r_config_proto self)); ev_of (SessionNew proto);
      ev_of (OfLoad (StoreGet (r_name self)))],
     (inl (AssertionError LOAD_AS_WRAPPER_MESSAGE), w3)).
Proof.
  intros Hproto Hsession Hget Hhub. unfold _setup, mbind, prog_bind.
  rewrite (exec_trigger_bind h _ _ _ _ _ Hproto). cbv beta.
  rewrite (exec_trigger_bind h _ _ _ _ _ Hsession). cbv beta.
  rewrite exec_bind, exec_embed.
  unfold load, mbind, prog_bind.
  rewrite (exec_trigger_bind (fun X ev => h X (OfLoad ev)) _ _ _ _ _ Hget). cbv beta.
  rewrite decide_True by assumption. reflexivity.
Qed.

(** X28: a batch run of a modern-mode runner whose predict function is a
    hooked wrapper, on an input that is a tensor already: the input is not
    converted; it is coerced against the wrapper's first positional spec,
    the original function is called with the coerced value alone, and the
    numeric value of its result is returned, all under the runner's device. *)
Theorem run_batch_through_wrapper (self : ready)
    (w : @tf_function_wrapper Spec Func) (names : list string) (s0 : Spec)
    (specs : list Spec) (d : gmap string Spec) (x x' res out : V) (op : Op)
    (w0 w1 w2 w3 w4 w5 w6 : W) :
  let device := r_device (rr_runner self) in
  rr_predict_fn self = PredictAttr (AWrapper w) ->
  arg_names w = Some names ->
  arg_specs w = Some (s0 :: specs) ->
  kwarg_specs w = Some d ->
  h _ (DeviceEnter device) w0 = (inr tt, w1) ->
  h _ VariablesInitializer w1 = (inr op, w2) ->
  h _ (OfCall (CastTensorBySpec x s0)) w2 = (inr x', w3) ->
  h _ (OfCall (Invoke (origin_func w) [x'] [])) w3 = (inr res, w4) ->
  h _ (Numpy res) w4 = (inr out, w5) ->
  h _ (DeviceExit device None) w5 = (inr tt, w6) ->
  exec h (_run_batch true self (TensorInput x)) w0
  = ([ev_of (DeviceEnter device); ev_of VariablesInitializer;
      ev_of (OfCall (CastTensorBySpec x s0));
      ev_of (OfCall (Invoke (origin_func w) [x'] []));
      ev_of (Numpy res); ev_of (DeviceExit device None)],
     (inr out, w6)).
Proof.
  intros device Hfn Hn Hs Hd Henter Hinit Hcast Hinvoke Hnumpy Hexit. subst device.
  unfold _run_batch, scoped, mbind, prog_bind, call_predict. rewrite Hfn.
  cbn -[call]. rewrite Henter. cbn -[call]. rewrite Hinit. cbn -[call].
  rewrite (call_validated w d) by assumption.
  unfold validated_call, mbind, prog_bind. rewrite Hd, Hn, Hs.
  cbn [check_kwargs bind].
  rewrite decide_True by (unfold kwarg_keys; simpl; apply (right_absorb_L ∅ (∩))).
  simpl. rewrite Hcast. simpl. rewrite Hinvoke. simpl. rewrite Hnumpy. simpl.
  rewrite Hexit. reflexivity.
Qed.

(** X29: a batch run of a legacy-mode runner on an input that is not a
    tensor: the input is converted to a [float32] tensor, the variables
    initializer is run in the runner's session, the serving signature is
    called with the tensor alone, and the result's entry under
    ["prediction"] is returned; its numeric value is never asked for. *)
Theorem run_batch_legacy (self : ready) (signature : V) (raw : Raw)
    (x res out : V) (op : Op) (w0 w1 w2 w3 w4 w5 w6 w7 : W) :
  let device := r_device (rr_runner self) in
  rr_predict_fn self = PredictSignature signature ->
  h _ (DeviceEnter device) w0 = (inr tt, w1) ->
  h _ (ConvertToTensor raw "float32") w1 = (inr x, w2) ->
  h _ VariablesInitializer w2 = (inr op, w3) ->
  h _ (RunOp (rr_session self) op) w3 = (inr tt, w4) ->
  h _ (CallSignature signature [x]) w4 = (inr res, w5) ->
  h _ (GetItem res "prediction") w5 = (inr out, w6) ->
  h _ (DeviceExit device None) w6 = (inr tt, w7) ->
  exec h (_run_batch false self (RawInput raw)) w0
  = ([ev_of (DeviceEnter device); ev_of (ConvertToTensor raw "float32");
      ev_of VariablesInitializer; ev_of (RunOp (rr_session self) op);
      ev_of (CallSignature signature [x]); ev_of (GetItem res "prediction");
      ev_of (DeviceExit device None)],
     (inr out, w7)).
Proof.
  intros device Hfn Henter Hconv Hinit Hrun Hcall Hget Hexit. subst device.
  unfold _run_batch, scoped, mbind, prog_bind, call_predict. rewrite Hfn.
  simpl. rewrite Henter. simpl. rewrite Hconv. simpl. rewrite Hinit. simpl.
  rewrite Hrun. simpl. rewrite Hcall. simpl. rewrite Hget. simpl.
  rewrite Hexit. reflexivity.
Qed.

End RunnerRuns.

(** ** The further properties at concrete inputs *)

Lemma num_replica_at_least_one_witness :
  num_replica Sample.two_gpus Example.gpu_quota = inr 2 /\ 1 <= 2.
Proof.
  split; [vm_compute; reflexivity|].
  apply (num_replica_at_least_one Sample.two_gpus Example.gpu_quota 2).
  vm_compute. reflexivity.
Defined.

Lemma several_replicas_run_single_threaded_witness :
  num_concurrency_per_replica Sample.two_gpus Example.gpu_quota = inr 1.
Proof.
  apply (several_replicas_run_single_threaded Sample.two_gpus Example.gpu_quota 2).
  - vm_compute. reflexivity.
  - discriminate.
Defined.

Lemma integral_cpu_quota_is_kept_witness :
  num_concurrency_per_replica Sample.no_gpu Sample.cpu_quota = inr 4.
Proof.
  apply (integral_cpu_quota_is_kept Sample.no_gpu Sample.cpu_quota 4).
  - intros [_ Hq]. discriminate Hq.
  - reflexivity.
Defined.

Lemma small_cpu_quota_rounds_to_zero_witness :
  num_concurrency_per_replica Sample.no_gpu Sample.quarter_quota = inr 0.
Proof.
  apply (small_cpu_quota_rounds_to_zero Sample.no_gpu Sample.quarter_quota).
  - intros [_ Hq]. discriminate Hq.
  - vm_compute. discriminate.
  - vm_compute. discriminate.
Defined.

Lemma accepted_call_shape_witness :
  let t := (exec (pure_handler Example.cast Example.orig)
                 (call Sample.keyword_wrapper [1%nat] [("c", 2%nat); ("b", 3%nat)])
                 tt).1 in
  coercions t
  = zip [1%nat] [7%nat]
    ++ kwarg_coercions Sample.keyword_lookup [("c", 2%nat); ("b", 3%nat)]
  /\ exists received kw,
       invocations t = [(origin_func Sample.keyword_wrapper, received, kw)]
       /\ length received = min (length [1%nat]) (length [7%nat])
       /\ kw.*1 = [("c", 2%nat); ("b", 3%nat)].*1.
Proof.
  apply (accepted_call_shape Example.cast Example.orig Sample.keyword_wrapper
           ["a"; "b"; "c"] [7%nat] Sample.keyword_lookup [1%nat]
           [("c", 2%nat); ("b", 3%nat)]).
  - reflexivity.
  - reflexivity.
  - reflexivity.
  - intros k Hk. simpl in Hk.
    apply elem_of_cons in Hk as [->|Hk];
      [|apply list_elem_of_singleton in Hk as ->];
      vm_compute; eexists; reflexivity.
  - vm_compute. reflexivity.
Defined.

Lemma merged_lookup_by_position_witness :
  dict_update (dict_of_pairs (zip ["a"; "b"] [7%nat; 9%nat])) ∅ !! "b" = Some 9%nat.
Proof.
  apply (merged_lookup_by_position 0%nat ["a"; "b"] [7%nat; 9%nat] None 1 "b" 9%nat).
  - apply NoDup_cons. split; [|apply NoDup_singleton].
    intros Hin. apply list_elem_of_singleton in Hin. discriminate Hin.
  - reflexivity.
  - reflexivity.
  - reflexivity.
  - reflexivity.
Defined.

Lemma hook_leaves_the_rest_witness :
  hook_loaded_model Example.restored Example.names_of Example.signatures_of
    Sample.versioned_model !! "version"
  = Sample.versioned_model !! "version".
Proof.
  apply (hook_leaves_the_rest Example.restored Example.names_of
           Example.signatures_of Sample.versioned_model "version").
  left. vm_compute. reflexivity.
Defined.

Lemma legacy_saved_model_warning_witness :
  exec (Sample.loader Sample.plain_info true) (_load_tf_saved_model false "/store/m") tt
  = ([ev_of (SavedModelLoad "/store/m"); ev_of (IsAutoTrackable Example.model);
      ev_of (LogWarning AUTOTRACKABLE_CALLABLE_WARNING)], (inr Example.model, tt)).
Proof.
  apply (legacy_saved_model_warning (Sample.loader Sample.plain_info true)
           "/store/m" Example.model true tt tt tt tt); reflexivity.
Defined.

Lemma hub_load_as_wrapper_witness :
  exec (Sample.loader Sample.hub_info true)
       (load true "2.4.0" Example.restored Example.names_of Example.signatures_of
             "m:1" None None (Some true)) tt
  = ([ev_of (StoreGet "m:1"); ev_of (HubKerasLayer "/store/m/hub")], (inr ∅, tt)).
Proof.
  apply (hub_load_as_wrapper true "2.4.0" Example.restored Example.names_of
           Example.signatures_of (Sample.loader Sample.hub_info true)
           "m:1" "/store/m/hub" None None Sample.hub_info (inr ∅) tt tt tt).
  - reflexivity.
  - vm_compute. eexists. reflexivity.
  - vm_compute. reflexivity.
  - reflexivity.
Defined.

Lemma hub_load_options_unsupported_witness :
  exec (Sample.loader Sample.hub_info true)
       (load true "2.2.0" Example.restored Example.names_of Example.signatures_of
             "m:1" None (Some 0%nat) (Some false)) tt
  = ([ev_of (StoreGet "m:1"); ev_of (GetModuleProtoPath "/store/m/hub");
      ev_of (GfileExists "/store/m/hub/tfhub_module.pb"); ev_of HasLoadOptions],
     (inl (NotImplementedError
             "options are not supported for TF < 2.3.x, Current version: 2.2.0"), tt)).
Proof.
  apply (hub_load_options_unsupported true "2.2.0" Example.restored Example.names_of
           Example.signatures_of (Sample.loader Sample.hub_info true)
           "m:1" "/store/m/hub" "/store/m/hub/tfhub_module.pb" None 0%nat
           Sample.hub_info true tt tt tt tt tt).
  - reflexivity.
  - vm_compute. eexists. reflexivity.
  - vm_compute. reflexivity.
  - reflexivity.
  - reflexivity.
  - reflexivity.
Defined.

Lemma hub_load_raw_module_witness :
  exec (Sample.loader Sample.hub_info true)
       (load true "2.4.0" Example.restored Example.names_of Example.signatures_of
             "m:1" None None (Some false)) tt
  = ([ev_of (StoreGet "m:1"); ev_of (GetModuleProtoPath "/store/m/hub");
      ev_of (GfileExists "/store/m/hub/tfhub_module.pb");
      ev_of (LoadV2 "/store/m/hub" (Some []) None)],
     (inr (<["_is_hub_module_v1" := ABool true]> Example.model), tt)).
Proof.
  apply (hub_load_raw_module true "2.4.0" Example.restored Example.names_of
           Example.signatures_of (Sample.loader Sample.hub_info true)
           "m:1" "/store/m/hub" "/store/m/hub/tfhub_module.pb" None
           Sample.hub_info true Example.model tt tt tt tt tt).
  - reflexivity.
  - vm_compute. eexists. reflexivity.
  - vm_compute. reflexivity.
  - reflexivity.
  - reflexivity.
  - reflexivity.
Defined.

Lemma hub_load_missing_local_path_witness :
  exec (Sample.loader Sample.hub_info_without_path true)
       (load true "2.4.0" Example.restored Example.names_of Example.signatures_of
             "m:1" None None (Some true)) tt
  = ([ev_of (StoreGet "m:1")], (inl (KeyError "local_path"), tt)).
Proof.
  apply (hub_load_missing_local_path true "2.4.0" Example.restored Example.names_of
           Example.signatures_of (Sample.loader Sample.hub_info_without_path true)
           "m:1" None None true Sample.hub_info_without_path tt tt).
  - reflexivity.
  - vm_compute. eexists. reflexivity.
  - vm_compute. reflexivity.
Defined.

Lemma plain_load_returns_hooked_model_witness :
  let hooked := hook_loaded_model Example.restored Example.names_of
                  Example.signatures_of Example.model in
  exec (Sample.loader Sample.plain_info true)
       (load true "2.4.0" Example.restored Example.names_of Example.signatures_of
             "m:1" None None None) tt
  = (ev_of (StoreGet "m:1") :: [ev_of (SavedModelLoad "/store/m")]
     ++ [ev_of (LogWarning TF_FUNCTION_WARNING);
         ev_of (PrettyFormatRestoredModel hooked);
         ev_of (LogInfo "summary")]
     ++ (if hasattr hooked "keras_api"
         then [ev_of (LogWarning (KERAS_MODEL_WARNING MODULE_NAME))] else []),
     (inr hooked, if hasattr hooked "keras_api" then tt else tt)).
Proof.
  apply (plain_load_returns_hooked_model true "2.4.0" Example.restored
           Example.names_of Example.signatures_of
           (Sample.loader Sample.plain_info true) "m:1" "summary" None None None
           Sample.plain_info Example.model [ev_of (SavedModelLoad "/store/m")]
           tt tt tt tt tt tt tt).
  - reflexivity.
  - vm_compute. reflexivity.
  - reflexivity.
  - reflexivity.
  - reflexivity.
  - reflexivity.
  - reflexivity.
Defined.


Lemma save_model_object_witness :
  exec Sample.saver
       (save false "1.15.0" (fun _ : nat => "opts") Sample.bytes_literal "m1"
             (ModelObject 7%nat)
             None (Some 3%nat) None) tt
  = (ev_of (StoreRegister "m1" MODULE_NAME None {[ "tensorflow" := "1.15.0" ]} None)
     :: [ev_of (SaveLogWarning
                  "Parameter 'options: opts' is ignored when using tensorflow 1.15.0")]
     ++ [ev_of (SavedModelSave 7%nat (ctx_path Example.ctx) None None);
         ev_of (StoreRegisterExit Example.ctx None)],
     (inr (ctx_tag Example.ctx), tt)).
Proof.
  apply (save_model_object false "1.15.0" (fun _ : nat => "opts")
           Sample.bytes_literal Sample.saver
           "m1" 7%nat None (Some 3%nat) None Example.ctx
           "Parameter 'options: opts' is ignored when using tensorflow 1.15.0"
           tt tt tt tt tt).
  - reflexivity.
  - intros o _. split; reflexivity.
  - reflexivity.
  - reflexivity.
Defined.

Lemma clean_name_is_word_only_witness :
  all_chars Sample.ascii_word
    (_clean_name Sample.ascii_word Sample.ascii_digit "google/nnlm-en/1") = true.
Proof.
  apply (clean_name_is_word_only Sample.ascii_word Sample.ascii_digit
           "google/nnlm-en/1").
  reflexivity.
Defined.

Lemma clean_name_keeps_word_names_witness :
  _clean_name Sample.ascii_word Sample.ascii_digit "nnlm_en_1" = "nnlm_en_1".
Proof.
  apply (clean_name_keeps_word_names Sample.ascii_word Sample.ascii_digit "nnlm_en_1");
    reflexivity.
Defined.

Lemma url_name_is_made_from_the_path_witness :
  name_of_handle Sample.ascii_word Sample.ascii_digit
    "https://tfhub.dev/google/nnlm-en/1"
  = _clean_name Sample.ascii_word Sample.ascii_digit "google/nnlm-en/1".
Proof.
  exact (url_name_is_made_from_the_path Sample.ascii_word Sample.ascii_digit
           "https:" "tfhub.dev" "google/nnlm-en/1" (or_intror eq_refl) eq_refl).
Defined.

Lemma import_handle_run_witness :
  exec (Sample.hub true)
       (import_from_tfhub Sample.ascii_word Sample.ascii_digit "2.4.0" (Some "0.12.0")
          (fun _ : nat => "KerasLayer") (fun _ : nat => false)
          (Handle "https://tfhub.dev/google/nnlm-en/1") None None) tt
  = ([ev_of (HubRegister "google_nnlm_en_1" MODULE_NAME None
               {[ "tensorflow" := "2.4.0"; "tensorflow_hub" := "0.12.0" ]} None);
      ev_of (SetEnviron "TFHUB_CACHE_DIR" (ctx_path Example.ctx));
      ev_of (Resolve "https://tfhub.dev/google/nnlm-en/1");
      ev_of (SetCtxOptions Example.ctx
               {[ "model" := "https://tfhub.dev/google/nnlm-en/1";
                  "local_path" := "/cache/module" ]});
      ev_of (HubRegisterExit Example.ctx None)],
     (inr (ctx_tag Example.ctx), tt)).
Proof.
  apply (import_handle_run Sample.ascii_word Sample.ascii_digit "2.4.0" "0.12.0"
           (fun _ : nat => "KerasLayer") (fun _ : nat => false) (Sample.hub true)
           "https://tfhub.dev/google/nnlm-en/1" "/cache/module" None None
           Example.ctx tt tt tt tt tt tt); reflexivity.
Defined.

Lemma import_handle_unresolved_witness :
  exec (Sample.hub false)
       (import_from_tfhub Sample.ascii_word Sample.ascii_digit "2.4.0" (Some "0.12.0")
          (fun _ : nat => "KerasLayer") (fun _ : nat => false)
          (Handle "nowhere/module") (Some "mine") None) tt
  = ([ev_of (HubRegister "mine" MODULE_NAME None
               {[ "tensorflow" := "2.4.0"; "tensorflow_hub" := "0.12.0" ]} None);
      ev_of (SetEnviron "TFHUB_CACHE_DIR" (ctx_path Example.ctx));
      ev_of (Resolve "nowhere/module");
      ev_of (HubRegisterExit Example.ctx (Some (ExternalError "unresolved")))],
     (inl (ExternalError "unresolved"), tt)).
Proof.
  apply (import_handle_unresolved Sample.ascii_word Sample.ascii_digit "2.4.0" "0.12.0"
           (fun _ : nat => "KerasLayer") (fun _ : nat => false) (Sample.hub false)
           "nowhere/module" (Some "mine") None Example.ctx
           (ExternalError "unresolved") tt tt tt tt tt); reflexivity.
Defined.

Lemma runner_rejects_unknown_device_witness :
  exec (Sample.tf ["/device:CPU:0"] Sample.plain_info)
       (runner_init (BatchOptions := nat) true Sample.no_gpu "m:1" "predict" "CPU:1"
                    Sample.cpu_quota None) tt
  = ([ev_of (TfDevice "CPU:1"); ev_of ListLocalDevices],
     (inl (AssertionError ""), tt)).
Proof.
  apply (runner_rejects_unknown_device true Sample.no_gpu
           (Sample.tf ["/device:CPU:0"] Sample.plain_info)
           "m:1" "predict" "CPU:1" Sample.cpu_quota None 0%nat (inr tt)
           ["/device:CPU:0"] tt tt tt tt).
  - reflexivity.
  - intros Hrestricted. discriminate Hrestricted.
  - reflexivity.
  - reflexivity.
Defined.

Lemma runner_config_follows_quota_witness :
  num_concurrency_per_replica Sample.no_gpu Sample.cpu_quota
    = inr (intra_op_parallelism_threads (r_config_proto Sample.cpu_runner))
  /\ inter_op_parallelism_threads (r_config_proto Sample.cpu_runner)
     = intra_op_parallelism_threads (r_config_proto Sample.cpu_runner)
  /\ allow_soft_placement (r_config_proto Sample.cpu_runner) = true
  /\ log_device_placement (r_config_proto Sample.cpu_runner) = false
  /\ r_name Sample.cpu_runner = "m:1"
  /\ r_resource_quota Sample.cpu_runner = Sample.cpu_quota
  /\ r_predict_fn_name Sample.cpu_runner = "predict".
Proof.
  apply (runner_config_follows_quota true Sample.no_gpu
           (Sample.tf ["/device:CPU:0"] Sample.plain_info)
           "m:1" "predict" "CPU:0" Sample.cpu_quota None
           [ev_of (TfDevice "CPU:0"); ev_of ListLocalDevices] Sample.cpu_runner tt tt).
  reflexivity.
Defined.

Lemma setup_fails_on_hub_entry_witness :
  exec (Sample.tf ["/device:CPU:0"] Sample.hub_info)
       (_setup (Raw := nat) (Op := nat) true "2.4.0" Example.restored
               Example.names_of Example.signatures_of Sample.cpu_runner) tt
  = ([ev_of (ConfigProto Sample.config); ev_of (SessionNew 0%nat);
      ev_of (OfLoad (StoreGet "m:1"))],
     (inl (AssertionError LOAD_AS_WRAPPER_MESSAGE), tt)).
Proof.
  apply (setup_fails_on_hub_entry true "2.4.0" Example.restored Example.names_of
           Example.signatures_of (Sample.tf ["/device:CPU:0"] Sample.hub_info)
           Sample.cpu_runner 0%nat 0%nat Sample.hub_info tt tt tt tt).
  - reflexivity.
  - reflexivity.
  - reflexivity.
  - vm_compute. eexists. reflexivity.
Defined.

Lemma run_batch_through_wrapper_witness :
  exec (Sample.tf ["/device:CPU:0"] Sample.plain_info)
       (_run_batch (Options := nat) (Proto := nat) true Sample.wrapped_runner
                   (TensorInput 1%nat)) tt
  = ([ev_of (DeviceEnter 0%nat); ev_of VariablesInitializer;
      ev_of (OfCall (CastTensorBySpec 1%nat 7%nat));
      ev_of (OfCall (Invoke 0%nat [8%nat] []));
      ev_of (Numpy 1%nat); ev_of (DeviceExit 0%nat None)],
     (inr 1%nat, tt)).
Proof.
  apply (run_batch_through_wrapper (Sample.tf ["/device:CPU:0"] Sample.plain_info)
           Sample.wrapped_runner Example.wrapper ["a"; "b"] 7%nat [] Example.lookup
           1%nat 8%nat 1%nat 1%nat 0%nat tt tt tt tt tt tt tt); reflexivity.
Defined.

Lemma run_batch_legacy_witness :
  exec (Sample.tf ["/device:CPU:0"] Sample.plain_info)
       (_run_batch (Options := nat) (Proto := nat) (Spec := nat) (Func := nat)
                   false Sample.legacy_runner (RawInput 2%nat)) tt
  = ([ev_of (DeviceEnter 0%nat); ev_of (ConvertToTensor 2%nat "float32");
      ev_of VariablesInitializer; ev_of (RunOp 0%nat 0%nat);
      ev_of (CallSignature 5%nat [2%nat]); ev_of (GetItem 5%nat "prediction");
      ev_of (DeviceExit 0%nat None)],
     (inr 5%nat, tt)).
Proof.
  apply (run_batch_legacy (Sample.tf ["/device:CPU:0"] Sample.plain_info)
           Sample.legacy_runner 5%nat 2%nat 2%nat 5%nat 5%nat 0%nat
           tt tt tt tt tt tt tt tt); reflexivity.
Defined.

